(** * convertDoxygen.py: the driver script of the Doxygen-to-docstring converter

    A shallow embedding of [docs/python/convertDoxygen.py] (OpenUSD).  The
    script is a straight-line program over the command line, the file system
    and three collaborators that live in other modules: the argument and
    logging helpers of [doxygenlib.cdUtils], the [Parser] of
    [doxygenlib.cdParser], and the writer plugins [doxygenlib.cdWriter<fmt>].

    The script is embedded as a computation in a monad of state, exceptions
    and output.  The state holds the file system and an allocator of object
    identities; the exception carries Python's [SystemExit] and uncaught
    errors; the output is the chronological trace of every call the script
    makes to the outside, which is what the claims are stated on. *)

From Stdlib Require Import Ascii DecimalString.
From stdpp Require Import base option strings list gmap.

Set Warnings "-unused-intro-pattern".

(** ** Python values the script manipulates *)

(** A variable read from the command line is [None] or a [str]. *)
Abbreviation PyStr := (option string).

(** Truthiness of an [Optional[str]]: [None] and the empty string are falsy. *)
Definition truthy (v : PyStr) : bool :=
  match v with
  | Some s => negb (String.eqb s "")
  | None => false
  end.

(** [str(v)], as [%s] formats it. *)
Definition py_str (v : PyStr) : string :=
  match v with
  | Some s => s
  | None => "None"
  end.

(** [%d] of a natural number. *)
Definition py_int_str (n : nat) : string := NilEmpty.string_of_uint (Nat.to_uint n).

(** [s.endswith(suffix)], on the reversed character lists. *)
Fixpoint prefix_chars (p l : list ascii) : bool :=
  match p, l with
  | [], _ => true
  | _ :: _, [] => false
  | a :: p', b :: l' => Ascii.eqb a b && prefix_chars p' l'
  end.

Definition endswith (s suffix : string) : bool :=
  prefix_chars (rev (String.list_ascii_of_string suffix)) (rev (String.list_ascii_of_string s)).

(** [s.split(sep)] for a one-character separator: the pieces between
    separators, empty pieces included; never the empty list. *)
Fixpoint py_split (sep : ascii) (s : string) : list string :=
  match s with
  | EmptyString => [""]
  | String c s' =>
      if Ascii.eqb c sep then "" :: py_split sep s'
      else match py_split sep s' with
           | piece :: pieces => String c piece :: pieces
           | [] => [String c ""]
           end
  end.

(** [s.replace(old, new)] for a one-character [old]. *)
Fixpoint py_replace (old : ascii) (new : string) (s : string) : string :=
  match s with
  | EmptyString => ""
  | String c s' =>
      if Ascii.eqb c old then new +:+ py_replace old new s'
      else String c (py_replace old new s')
  end.

(** ** The documentation elements handed to the writers *)

(** Modelled from the spec: the [DocElement] class of [doxygenlib.cdParser]
    is not part of the script; section 3 of the specification lists its
    attributes (kind, names, refid, brief and detailed description, optional
    location, ordered parameter list, return description, ordered children).
    The script never looks inside an element. *)
Inductive DocKind :=
  KNamespace | KClass | KStruct | KFunction | KVariable | KEnum | KParam.

Record DocParam := {
  param_name : string;
  param_type : string;
  param_description : string;
}.

#[warnings="-register-all"] Inductive DocElement := {
  kind : DocKind;
  name : string;
  qualified_name : string;
  refid : string;
  brief : string;
  detailed : string;
  location : option (string * nat);
  params : list DocParam;
  returns : string;
  children : list DocElement;
}.

(** A Python list object holding the flattened elements: its identity and
    its items.  [docList] in the script is [None] or such an object. *)
Record PyList := {
  oid : nat;
  items : list DocElement;
}.

(** ** Exceptions *)

(** [SystemExit] derives from [BaseException] only; [ImportError] (with its
    subclass [ModuleNotFoundError]) and every other error class named here
    derive from [Exception]. *)
Inductive exn :=
  | SystemExit (code : nat)
  | ImportError
  | OtherException (cls : string).

(** [except Exception] *)
Definition is_Exception (e : exn) : bool :=
  match e with
  | SystemExit _ => false
  | _ => true
  end.

Inductive result (A : Type) :=
  | Ok (a : A)
  | Raised (e : exn).
Arguments Ok {A} a.
Arguments Raised {A} e.

(** The exit status the interpreter reports for a finished script. *)
Definition exit_status {A} (r : result A) : nat :=
  match r with
  | Ok _ => 0
  | Raised (SystemExit code) => code
  | Raised _ => 1
  end.

(** [traceback.format_exc()]: the interpreter's rendering of the exception
    being handled; only its last line is modelled. *)
Definition format_exc (e : exn) : string :=
  "Traceback (most recent call last): " +:+
  match e with
  | SystemExit _ => "SystemExit"
  | ImportError => "ImportError"
  | OtherException cls => cls
  end.

(** ** The file system *)

Record File := {
  readable : bool;
  writable : bool;
  data : string;
}.

Inductive Node :=
  | Dir
  | Regular (f : File).

Abbreviation FS := (gmap string Node).

(** [os.path.isfile], [os.path.isdir] *)
Definition isfile (fs : FS) (path : string) : bool :=
  match fs !! path with
  | Some (Regular _) => true
  | _ => false
  end.

Definition isdir (fs : FS) (path : string) : bool :=
  match fs !! path with
  | Some Dir => true
  | _ => false
  end.

(** [open(path, "rb").read()] *)
Definition read_file (fs : FS) (path : string) : result string :=
  match fs !! path with
  | Some (Regular f) =>
      if readable f then Ok (data f) else Raised (OtherException "PermissionError")
  | Some Dir => Raised (OtherException "IsADirectoryError")
  | None => Raised (OtherException "FileNotFoundError")
  end.

(** [open(path, "wb").write(bytes)]: truncates a writable file, creates a
    missing one. *)
Definition write_file (fs : FS) (path : string) (bytes : string) : result FS :=
  match fs !! path with
  | Some (Regular f) =>
      if writable f
      then Ok (<[path := Regular {| readable := readable f; writable := true; data := bytes |}]> fs)
      else Raised (OtherException "PermissionError")
  | Some Dir => Raised (OtherException "IsADirectoryError")
  | None => Ok (<[path := Regular {| readable := true; writable := true; data := bytes |}]> fs)
  end.

(** ** The helpers of [doxygenlib.cdUtils] *)

(** Modelled from the spec: [GetArgValue] of [doxygenlib.cdUtils] is not part
    of the script, and the specification leaves command-line parsing to an
    external collaborator; this follows the call sites
    [GetArgValue(names, default)]: the element of [sys.argv] that follows
    the first occurrence of one of [names], else [default]. *)
Fixpoint GetArgValue_scan (names : list string) (argv : list string) : PyStr :=
  match argv with
  | a :: rest =>
      match rest with
      | v :: _ => if bool_decide (a ∈ names) then Some v else GetArgValue_scan names rest
      | [] => None
      end
  | [] => None
  end.

Definition GetArgValue (names : list string) (default : PyStr) (argv : list string) : PyStr :=
  match GetArgValue_scan names argv with
  | Some v => Some v
  | None => default
  end.

(** Modelled from the spec: [GetArg] of [doxygenlib.cdUtils] is not part of
    the script; following its call sites it tells whether one of [names]
    occurs in [sys.argv]. *)
Definition GetArg (names : list string) (argv : list string) : bool :=
  existsb (fun a => bool_decide (a ∈ names)) argv.

(** ** The collaborators *)

(** A writer class is known by the module that defines it; a writer object
    by its class and the arguments of its constructor. *)
Record WriterClass := {
  defining_module : string;
}.

Record WriterObj := {
  writer_class : WriterClass;
  writer_package : PyStr;
  writer_module : string;
}.

(** Modelled from the spec: the [Parser] class of [doxygenlib.cdParser] and
    the [Writer] classes of the plugins [doxygenlib.cdWriter<fmt>] are not
    part of the script.  They are parameters here, typed by their contracts
    in the specification: sections 4.2 and 4.3 for the parser ([parse] and
    [parseDoxygenIndexFile] answer a boolean and do not raise, [traverse]
    answers the ordered elements and leaves the tree as it is), section 4.4
    for the writers (the constructor and [generate] may fail).  [importlib],
    [pickle] and [os] belong to the Python runtime and are parameters too;
    of [os.path.join] only one law is used: the result ends with its last
    component. *)
Class Collaborators := {
  (* os *)
  os_name : string;
  os_sep : string;
  path_join : string -> string -> string;
  path_join_suffix : forall a b, exists pre, path_join a b = pre +:+ b;
  (* importlib *)
  import_module : string -> string -> result WriterClass;
  (* pickle *)
  pickle_dumps : option (list DocElement) -> string;
  pickle_loads : string -> result (option (list DocElement));
  (* doxygenlib.cdParser.Parser *)
  Parser : Type;
  Parser_new : Parser;
  Parser_parse : Parser -> FS -> PyStr -> bool * Parser;
  Parser_parseDoxygenIndexFile : Parser -> FS -> string -> bool * Parser;
  Parser_traverse : Parser -> WriterObj -> option (list DocElement);
  (* doxygenlib.cdWriter<fmt>.Writer *)
  Writer_init : WriterClass -> PyStr -> string -> FS -> result unit;
  Writer_generate : WriterObj -> string -> option PyList -> FS -> result FS;
}.

(** ** Observable calls *)

Inductive Event :=
  | EvSetDebugMode (on : bool)
  | EvUsage
  | EvError (msg : string)
  | EvDebug (msg : string)
  | EvPrint (msg : string)
  | EvRemove (path : string)
  | EvSysPathAppend (path : string)
  | EvAddDllDirectory (path : string)
  | EvImport (module package : string) (imported : result WriterClass)
  | EvPickleLoad (path : string) (loaded : result (option PyList))
  | EvParse (path : PyStr) (ok : bool)
  | EvParseIndex (path : string) (ok : bool)
  | EvWriterInit (w : WriterObj)
  | EvTraverse (w : WriterObj) (docs : option PyList)
  | EvPickleDump (path : string) (docs : option PyList)
  | EvGenerate (w : WriterObj) (path : string) (docs : option PyList).

(** The state the script and its collaborators change: the file system and
    the allocator of object identities. *)
Record State := {
  fs : FS;
  next_oid : nat;
}.

Definition initial (fs0 : FS) : State :=
  {| fs := fs0; next_oid := 0 |}.

(** ** The monad of the script *)

(** A run ends normally or with an exception, in a final state, after a
    chronological trace of calls. *)
Record Run (A : Type) := {
  outcome : result A;
  final : State;
  trace : list Event;
}.
Arguments outcome {A} r.
Arguments final {A} r.
Arguments trace {A} r.

Definition M (A : Type) : Type := State -> Run A.

Definition ret {A} (a : A) : M A :=
  fun s => {| outcome := Ok a; final := s; trace := [] |}.

Definition raise {A} (e : exn) : M A :=
  fun s => {| outcome := Raised e; final := s; trace := [] |}.

(** [m] then [k], the traces in sequence; an exception of [m] ends the run. *)
Definition bind {A B} (m : M A) (k : A -> M B) : M B :=
  fun s =>
    match m s with
    | {| outcome := Ok a; final := s1; trace := t1 |} =>
        match k a s1 with
        | {| outcome := r; final := s2; trace := t2 |} =>
            {| outcome := r; final := s2; trace := t1 ++ t2 |}
        end
    | {| outcome := Raised e; final := s1; trace := t1 |} =>
        {| outcome := Raised e; final := s1; trace := t1 |}
    end.

(** [try: body  except <caught>: handler]; effects of [body] before the
    exception stay. *)
Definition try_except {A} (body : M A) (caught : exn -> bool) (handler : exn -> M A) : M A :=
  fun s =>
    match body s with
    | {| outcome := Ok a; final := s1; trace := t1 |} =>
        {| outcome := Ok a; final := s1; trace := t1 |}
    | {| outcome := Raised e; final := s1; trace := t1 |} =>
        if caught e then
          match handler e s1 with
          | {| outcome := r; final := s2; trace := t2 |} =>
              {| outcome := r; final := s2; trace := t1 ++ t2 |}
          end
        else {| outcome := Raised e; final := s1; trace := t1 |}
    end.

Declare Scope script_scope.
Delimit Scope script_scope with script.
Notation "x <- m ;; k" := (bind m (fun x => k))
  (at level 100, m at next level, right associativity) : script_scope.
Notation "m ;; k" := (bind m (fun _ => k))
  (at level 100, right associativity) : script_scope.
Open Scope script_scope.

Definition when (b : bool) (m : M unit) : M unit :=
  if b then m else ret tt.

Fixpoint for_each {A} (l : list A) (body : A -> M unit) : M unit :=
  match l with
  | [] => ret tt
  | x :: l' => body x ;; for_each l' body
  end.

(** Primitive steps: log a call, read or change the file system, allocate
    an object identity. *)
Definition emit (ev : Event) : M unit :=
  fun s => {| outcome := Ok tt; final := s; trace := [ev] |}.

Definition get_fs : M FS :=
  fun s => {| outcome := Ok (fs s); final := s; trace := [] |}.

Definition put_fs (fs' : FS) : M unit :=
  fun s => {| outcome := Ok tt; final := {| fs := fs'; next_oid := next_oid s |}; trace := [] |}.

Definition new_list (l : list DocElement) : M PyList :=
  fun s => {| outcome := Ok {| oid := next_oid s; items := l |};
              final := {| fs := fs s; next_oid := S (next_oid s) |};
              trace := [] |}.

Definition lift {A} (r : result A) : M A :=
  fun s => {| outcome := r; final := s; trace := [] |}.

(** Run [m] and log the call together with its outcome. *)
Definition observe {A} (m : M A) (ev : result A -> Event) : M A :=
  fun s =>
    match m s with
    | {| outcome := r; final := s1; trace := t1 |} =>
        {| outcome := r; final := s1; trace := t1 ++ [ev r] |}
    end.

(** Modelled from the spec: [SetDebugMode], [Debug], [Usage] and [Error] of
    [doxygenlib.cdUtils] are not part of the script.  Section 7 of the
    specification: a fatal error produces a message for the user and the
    process exits non-zero; a cache read failure is logged at debug level. *)
Definition SetDebugMode (on : bool) : M unit := emit (EvSetDebugMode on).

Definition Debug (msg : string) : M unit := emit (EvDebug msg).

Definition Usage {A} : M A := emit EvUsage ;; raise (SystemExit 1).

Definition Error {A} (msg : string) : M A := emit (EvError msg) ;; raise (SystemExit 1).

(** ** The command line (lines 31-38, 40, 42, 45-46) *)

Record Options := {
  xml_file : PyStr;
  xml_file_dir : PyStr;
  xml_index_file : PyStr;
  output_file : PyStr;
  output_format : PyStr;
  python_path : PyStr;
  dll_path : PyStr;
  use_cached_parsing : bool;
  debug_mode : bool;
  help : bool;
  packageName : PyStr;
  modules : PyStr;
}.

Definition read_options (argv : list string) : Options :=
  {| xml_file := GetArgValue ["--input"; "-i"] None argv;
     xml_file_dir := GetArgValue ["--inputDir"] None argv;
     xml_index_file := GetArgValue ["--inputIndex"] None argv;
     output_file := GetArgValue ["--output"; "-o"] None argv;
     output_format := GetArgValue ["--format"; "-f"] (Some "Docstring") argv;
     python_path := GetArgValue ["--pythonPath"] None argv;
     dll_path := GetArgValue ["--dllPath"] None argv;
     use_cached_parsing := GetArg ["--cacheParsing"; "-c"] argv;
     debug_mode := GetArg ["--debug"; "-d"] argv;
     help := GetArg ["--help"; "-h"] argv;
     packageName := GetArgValue ["--package"; "-p"] None argv;
     modules := GetArgValue ["--module"; "-m"] None argv |}.

(** ** The script *)

Section Script.
Context `{Collaborators}.

(** Lines 40-50: debug mode, the usage check and the two required options. *)
Definition validate (o : Options) : M unit :=
  SetDebugMode (debug_mode o) ;;
  when (negb (truthy (xml_file o) || truthy (xml_index_file o))
        || negb (truthy (output_file o)) || help o) Usage ;;
  when (negb (truthy (packageName o))) (Error "Required option --package not specified") ;;
  when (negb (truthy (modules o))) (Error "Required option --module not specified").

(** Line 53: [[x for x in modules.split(",") if x]]. *)
Definition split_modules (v : PyStr) : M (list string) :=
  match v with
  | Some m => ret (filter (fun x => x <> "") (py_split "," m))
  | None => raise (OtherException "AttributeError")
  end.

(** Lines 56-63, the body of the first loop.  On [None], [endswith] is an
    attribute error and [os.path.join] a type error. *)
Definition module_output_path (o : Options) (module_list : list string)
    (moduleName : string) : M string :=
  match output_file o with
  | Some out =>
      if Nat.eqb (length module_list) 1 && endswith out ".py" then ret out
      else ret (path_join (path_join out moduleName) "__DOC.py")
  | None =>
      if Nat.eqb (length module_list) 1 then raise (OtherException "AttributeError")
      else raise (OtherException "TypeError")
  end.

Fixpoint map_M {A B} (f : A -> M B) (l : list A) : M (list B) :=
  match l with
  | [] => ret []
  | x :: l' => y <- f x ;; ys <- map_M f l' ;; ret (y :: ys)
  end.

(** Lines 53-65. *)
Definition plan_outputs (o : Options) : M (list string * list string) :=
  module_list <- split_modules (modules o) ;;
  output_files <- map_M (module_output_path o module_list) module_list ;;
  if Nat.eqb (length output_files) (length module_list)
  then ret (module_list, output_files)
  else raise (OtherException "AssertionError").

(** Lines 69-71. *)
Definition os_remove (path : string) : M unit :=
  emit (EvRemove path) ;;
  fs0 <- get_fs ;;
  put_fs (delete path fs0).

Definition clean_outputs (output_files : list string) : M unit :=
  for_each output_files (fun module_output_file =>
    fs0 <- get_fs ;;
    when (isfile fs0 module_output_file) (os_remove module_output_file)).

(** Lines 77-84. *)
Definition extend_search_paths (o : Options) : M unit :=
  match python_path o with
  | Some p => emit (EvSysPathAppend p)
  | None => ret tt
  end ;;
  match dll_path o with
  | Some d =>
      if String.eqb os_name "nt" then
        for_each (py_split ";" (py_replace "/" os_sep d)) (fun path =>
          fs0 <- get_fs ;;
          when (isdir fs0 path) (emit (EvAddDllDirectory path)))
      else ret tt
  | None => ret tt
  end.

(** Lines 88-93. *)
Definition plugin_name (fmt : PyStr) : M string :=
  match fmt with
  | Some f => ret (".cdWriter" +:+ f)
  | None => raise (OtherException "TypeError")
  end.

Definition load_plugin (o : Options) : M WriterClass :=
  try_except
    (module <- plugin_name (output_format o) ;;
     observe (lift (import_module module "doxygenlib")) (EvImport module "doxygenlib"))
    (fun e => match e with ImportError => true | _ => false end)
    (fun _ => Error ("No writer plugin exists for format '" +:+ py_str (output_format o) +:+ "'")).

(** Lines 104-107. *)
Definition pickle_path_of (o : Options) : M string :=
  match xml_index_file o with
  | Some index => ret (index +:+ ".pickle")
  | None =>
      match xml_file o with
      | Some file => ret (file +:+ ".pickle")
      | None => raise (OtherException "TypeError")
      end
  end.

(** Lines 114-115: [with open(pickle_path, "rb") as f: pickle.load(f)]. *)
Definition pickle_load (path : string) : M (option PyList) :=
  observe
    (fs0 <- get_fs ;;
     bytes <- lift (read_file fs0 path) ;;
     loaded <- lift (pickle_loads bytes) ;;
     match loaded with
     | Some l => obj <- new_list l ;; ret (Some obj)
     | None => ret None
     end)
    (EvPickleLoad path).

(** Lines 112-119. *)
Definition load_cache (o : Options) (pickle_path : string) : M (option PyList) :=
  fs0 <- get_fs ;;
  if use_cached_parsing o && isfile fs0 pickle_path then
    try_except
      (docList <- pickle_load pickle_path ;;
       Debug ("Read pre-parsed file: '" +:+ pickle_path +:+ "'") ;;
       ret docList)
      is_Exception
      (fun e =>
         Debug ("Error reading pre-parsed file: '" +:+ pickle_path +:+ "'") ;;
         Debug (format_exc e) ;;
         ret None)
  else ret None.

(** Lines 121-127. *)
Definition parse_input (o : Options) (parser : Parser) (docList : option PyList) : M Parser :=
  match docList with
  | Some _ => ret parser
  | None =>
      fs0 <- get_fs ;;
      match xml_index_file o with
      | Some index =>
          let '(ok, parser') := Parser_parseDoxygenIndexFile parser fs0 index in
          emit (EvParseIndex index ok) ;;
          if ok then ret parser'
          else Error ("Could not parse XML index file: " +:+ index)
      | None =>
          let '(ok, parser') := Parser_parse parser fs0 (xml_file o) in
          emit (EvParse (xml_file o) ok) ;;
          if ok then ret parser'
          else Error ("Could not parse XML file: " +:+ py_str (xml_file o))
      end
  end.

(** [len(docList)]; [None] has no length. *)
Definition py_len (docList : option PyList) : M nat :=
  match docList with
  | Some obj => ret (length (items obj))
  | None => raise (OtherException "TypeError")
  end.

(** Lines 148-149: [with open(pickle_path, "wb") as f: pickle.dump(docList, f)]. *)
Definition pickle_dump (path : string) (docList : option PyList) : M unit :=
  emit (EvPickleDump path docList) ;;
  fs0 <- get_fs ;;
  fs1 <- lift (write_file fs0 path (pickle_dumps (items <$> docList))) ;;
  put_fs fs1.

(** Line 145: [parser.traverse(writer)], whose answer is a new list object
    or [None]. *)
Definition traverse (parser : Parser) (writer : WriterObj) : M (option PyList) :=
  docList <- match Parser_traverse parser writer with
             | Some l => obj <- new_list l ;; ret (Some obj)
             | None => ret None
             end ;;
  emit (EvTraverse writer docList) ;;
  ret docList.

(** Lines 139-150, the body of the module loop; answers the value of
    [docList] after the iteration. *)
Definition module_step (o : Options) (Writer : WriterClass) (parser : Parser)
    (pickle_path : string) (docList : option PyList)
    (moduleName module_output_file : string) : M (option PyList) :=
  let writer := {| writer_class := Writer;
                   writer_package := packageName o;
                   writer_module := moduleName |} in
  emit (EvWriterInit writer) ;;
  fs0 <- get_fs ;;
  lift (Writer_init Writer (packageName o) moduleName fs0) ;;
  Debug ("Processing module " +:+ moduleName) ;;
  docList <- match docList with
             | Some _ => ret docList
             | None =>
                 docList <- traverse parser writer ;;
                 n <- py_len docList ;;
                 Debug ("Processed " +:+ py_int_str n +:+ " DocElements from doxygen XML") ;;
                 when (use_cached_parsing o) (pickle_dump pickle_path docList) ;;
                 ret docList
             end ;;
  emit (EvGenerate writer module_output_file docList) ;;
  fs1 <- get_fs ;;
  fs2 <- lift (Writer_generate writer module_output_file docList fs1) ;;
  put_fs fs2 ;;
  ret docList.

(** Lines 134-150. *)
Fixpoint module_loop (o : Options) (Writer : WriterClass) (parser : Parser)
    (pickle_path : string) (docList : option PyList)
    (todo : list (string * string)) : M unit :=
  match todo with
  | [] => ret tt
  | (moduleName, module_output_file) :: todo' =>
      docList <- module_step o Writer parser pickle_path docList moduleName module_output_file ;;
      module_loop o Writer parser pickle_path docList todo'
  end.

(** Lines 40-84: everything before the plugin is imported. *)
Definition prelude (o : Options) : M (list string * list string) :=
  validate o ;;
  plan <- plan_outputs o ;;
  clean_outputs (snd plan) ;;
  extend_search_paths o ;;
  ret plan.

(** Lines 95-150: everything after the plugin is imported. *)
Definition convert (o : Options) (Writer : WriterClass)
    (plan : list string * list string) : M unit :=
  emit (EvPrint ("Converting Doxygen comments to " +:+ py_str (output_format o) +:+ " format...")) ;;
  let parser := Parser_new in
  pickle_path <- pickle_path_of o ;;
  docList <- load_cache o pickle_path ;;
  parser <- parse_input o parser docList ;;
  module_loop o Writer parser pickle_path docList (zip (fst plan) (snd plan)).

Definition script (o : Options) : M unit :=
  plan <- prelude o ;;
  Writer <- load_plugin o ;;
  convert o Writer plan.

(** The whole program, started on a file system. *)
Definition main (argv : list string) (fs0 : FS) : Run unit :=
  script (read_options argv) (initial fs0).

End Script.

Arguments prelude : simpl never.
Arguments load_plugin : simpl never.
Arguments load_cache : simpl never.
Arguments parse_input : simpl never.
Arguments module_step : simpl never.
Arguments convert : simpl never.
Arguments script : simpl never.

(** ** Classes of events *)

Definition is_parse (ev : Event) : bool :=
  match ev with EvParse _ _ | EvParseIndex _ _ => true | _ => false end.

Definition is_traverse (ev : Event) : bool :=
  match ev with EvTraverse _ _ => true | _ => false end.

Definition is_generate (ev : Event) : bool :=
  match ev with EvGenerate _ _ _ => true | _ => false end.

Definition is_writer_init (ev : Event) : bool :=
  match ev with EvWriterInit _ => true | _ => false end.

Definition is_pickle_dump (ev : Event) : bool :=
  match ev with EvPickleDump _ _ => true | _ => false end.

(** A message for the user: the usage text or an [Error]. *)
Definition is_fatal_message (ev : Event) : bool :=
  match ev with EvUsage | EvError _ => true | _ => false end.

(** Calls that read the XML input or produce output from it. *)
Definition is_processing (ev : Event) : bool :=
  is_parse ev || is_traverse ev || is_generate ev || is_writer_init ev || is_pickle_dump ev.

(** The calls each part of the script can make. *)
Definition prelude_event (ev : Event) : bool :=
  match ev with
  | EvSetDebugMode _ | EvUsage | EvError _ | EvRemove _
  | EvSysPathAppend _ | EvAddDllDirectory _ => true
  | _ => false
  end.

Definition plugin_event (ev : Event) : bool :=
  match ev with EvImport _ _ _ | EvError _ => true | _ => false end.

Definition loop_event (ev : Event) : bool :=
  match ev with
  | EvWriterInit _ | EvDebug _ | EvTraverse _ _ | EvPickleDump _ _ | EvGenerate _ _ _ => true
  | _ => false
  end.

(** The writer an event is about. *)
Definition writer_of (ev : Event) : option WriterObj :=
  match ev with
  | EvWriterInit w | EvTraverse w _ | EvGenerate w _ _ => Some w
  | _ => None
  end.

(** The cache file an event is about. *)
Definition pickle_of (ev : Event) : option string :=
  match ev with
  | EvPickleLoad p _ | EvPickleDump p _ => Some p
  | _ => None
  end.

(** The options under which the script gets past lines 42-50. *)
Definition valid_options (o : Options) : bool :=
  (truthy (xml_file o) || truthy (xml_index_file o))
  && truthy (output_file o) && negb (help o)
  && truthy (packageName o) && truthy (modules o).

(** The module names of line 53. *)
Definition module_names (o : Options) : list string :=
  match modules o with
  | Some m => filter (fun x => x <> "") (py_split "," m)
  | None => []
  end.

(** A run is a cache hit when [pickle.load] answered a list. *)
Definition is_hit (ev : Event) : bool :=
  match ev with EvPickleLoad _ (Ok (Some _)) => true | _ => false end.

Definition cache_hit {A} (r : Run A) : bool := existsb is_hit (trace r).

(** ** Notions the claims are stated with *)

(** The calls of the cache step and of the parse step. *)
Definition cache_event (ev : Event) : bool :=
  match ev with EvPickleLoad _ _ | EvDebug _ => true | _ => false end.

Definition parse_event (ev : Event) : bool :=
  match ev with EvParse _ _ | EvParseIndex _ _ | EvError _ => true | _ => false end.

(** The list object an event carries. *)
Definition docs_of (ev : Event) : option (option PyList) :=
  match ev with
  | EvTraverse _ x | EvPickleDump _ x | EvGenerate _ _ x => Some x
  | _ => None
  end.

(** A parse call that answered false, and the message line 124 or 127
    gives for it. *)
Definition is_failed_parse (ev : Event) : bool :=
  match ev with
  | EvParse _ false | EvParseIndex _ false => true
  | _ => false
  end.

Definition parse_error_message (ev : Event) : string :=
  match ev with
  | EvParse path _ => "Could not parse XML file: " +:+ py_str path
  | EvParseIndex path _ => "Could not parse XML index file: " +:+ path
  | _ => ""
  end.

(** What holds of every call of the module loop over the modules [names]
    when the list object in play is [docs]. *)
Definition loop_call (o : Options) (W : WriterClass) (pp : string)
    (names : list string) (docs : option PyList) (ev : Event) : Prop :=
  loop_event ev = true
  /\ (forall w, writer_of ev = Some w ->
        writer_class w = W /\ writer_package w = packageName o /\ In (writer_module w) names)
  /\ (forall x, docs_of ev = Some x -> x = docs)
  /\ (forall p, pickle_of ev = Some p -> p = pp).

(** Lines 104-107 as a value: the path next to the index file when one is
    given, else next to the XML file. *)
Definition cache_path (o : Options) : option string :=
  match xml_index_file o with
  | Some index => Some (index +:+ ".pickle")
  | None =>
      match xml_file o with
      | Some file => Some (file +:+ ".pickle")
      | None => None
      end
  end.


(** Every call [m] makes is in the class [E]. *)
Definition emits {A} (E : Event -> bool) (m : M A) : Prop :=
  forall s, Forall (fun ev => E ev = true) (trace (m s)).

Section Notions.
Context `{Collaborators}.

(** The output paths of lines 55-64, for the options that pass line 42. *)
Definition output_paths (o : Options) : list string :=
  match output_file o with
  | Some out =>
      (fun moduleName =>
         if Nat.eqb (length (module_names o)) 1 && endswith out ".py" then out
         else path_join (path_join out moduleName) "__DOC.py") <$> module_names o
  | None => []
  end.

(** What [pickle.load] of the file at [path] answers. *)
Definition load_result (fs0 : FS) (path : string) : result (option (list DocElement)) :=
  match read_file fs0 path with
  | Ok bytes => pickle_loads bytes
  | Raised e => Raised e
  end.

(** Line 95. *)
Definition announce (o : Options) : Event :=
  EvPrint ("Converting Doxygen comments to " +:+ py_str (output_format o) +:+ " format...").

(** The state [s1] and the calls [t1] after the prelude of a run started in
    [s0]: only [.py] files were removed, no list object was allocated, no
    fatal message was issued. *)
Definition after_prelude (s0 s1 : State) (t1 : list Event) : Prop :=
  next_oid s1 = next_oid s0
  /\ (forall p, endswith p ".py" = false -> fs s1 !! p = fs s0 !! p)
  /\ Forall (fun ev => prelude_event ev = true /\ is_fatal_message ev = false) t1.

(** Where a run of the script can end, with the runs of the stages it went
    through. *)
Inductive stages (o : Options) (s0 : State) : Run unit -> Prop :=
  | ends_in_validation ev :
      valid_options o = false ->
      is_fatal_message ev = true ->
      stages o s0 {| outcome := Raised (SystemExit 1); final := s0;
                     trace := [EvSetDebugMode (debug_mode o); ev] |}
  | ends_in_import s1 t1 e t2 :
      valid_options o = true ->
      after_prelude s0 s1 t1 ->
      load_plugin o s1 = {| outcome := Raised e; final := s1; trace := t2 |} ->
      stages o s0 {| outcome := Raised e; final := s1; trace := t1 ++ t2 |}
  | ends_in_cache s1 t1 W t2 pp e s2 t3 :
      valid_options o = true ->
      after_prelude s0 s1 t1 ->
      load_plugin o s1 = {| outcome := Ok W; final := s1; trace := t2 |} ->
      cache_path o = Some pp ->
      load_cache o pp s1 = {| outcome := Raised e; final := s2; trace := t3 |} ->
      stages o s0 {| outcome := Raised e; final := s2;
                     trace := t1 ++ t2 ++ announce o :: t3 |}
  | ends_in_parse s1 t1 W t2 pp d s2 t3 e s3 t4 :
      valid_options o = true ->
      after_prelude s0 s1 t1 ->
      load_plugin o s1 = {| outcome := Ok W; final := s1; trace := t2 |} ->
      cache_path o = Some pp ->
      load_cache o pp s1 = {| outcome := Ok d; final := s2; trace := t3 |} ->
      parse_input o Parser_new d s2 = {| outcome := Raised e; final := s3; trace := t4 |} ->
      stages o s0 {| outcome := Raised e; final := s3;
                     trace := t1 ++ t2 ++ announce o :: t3 ++ t4 |}
  | ends_in_loop s1 t1 W t2 pp d s2 t3 parser s3 t4 r s4 t5 :
      valid_options o = true ->
      after_prelude s0 s1 t1 ->
      load_plugin o s1 = {| outcome := Ok W; final := s1; trace := t2 |} ->
      cache_path o = Some pp ->
      load_cache o pp s1 = {| outcome := Ok d; final := s2; trace := t3 |} ->
      parse_input o Parser_new d s2 = {| outcome := Ok parser; final := s3; trace := t4 |} ->
      module_loop o W parser pp d (zip (module_names o) (output_paths o)) s3
      = {| outcome := r; final := s4; trace := t5 |} ->
      stages o s0 {| outcome := r; final := s4;
                     trace := t1 ++ t2 ++ announce o :: t3 ++ t4 ++ t5 |}.


End Notions.

(** ** Notions for the rest of the script *)

(** The condition of line 42 under which the usage text is shown. *)
Definition wants_usage (o : Options) : bool :=
  negb (truthy (xml_file o) || truthy (xml_index_file o))
  || negb (truthy (output_file o)) || help o.

(** [sep.join(l)] for a one-character separator. *)
Fixpoint py_join (sep : ascii) (l : list string) : string :=
  match l with
  | [] => ""
  | [x] => x
  | x :: l' => x +:+ String sep (py_join sep l')
  end.

(** A proper module name: not empty, no comma in it. *)
Definition proper_name (m : string) : Prop :=
  m <> "" /\ ~ In ","%char (String.list_ascii_of_string m).

(** The calls after the prelude: the import, the announcement, the cache,
    the parse and the module loop. *)
Definition late_event (ev : Event) : bool :=
  match ev with
  | EvSetDebugMode _ | EvUsage | EvRemove _ | EvSysPathAppend _ | EvAddDllDirectory _ => false
  | _ => true
  end.

(** The module and the output path of a [generate] call, the module of a
    writer construction; then those of a whole trace, in order. *)
Definition generate_target (ev : Event) : option (string * string) :=
  match ev with
  | EvGenerate w out _ => Some (writer_module w, out)
  | _ => None
  end.

Definition generate_targets (t : list Event) : list (string * string) :=
  omap generate_target t.

Definition created_writer (ev : Event) : option string :=
  match ev with
  | EvWriterInit w => Some (writer_module w)
  | _ => None
  end.

Definition writers_created (t : list Event) : list string :=
  omap created_writer t.

Definition is_pickle_load (ev : Event) : bool :=
  match ev with EvPickleLoad _ _ => true | _ => false end.


Definition is_set_debug_mode (ev : Event) : bool :=
  match ev with EvSetDebugMode _ => true | _ => false end.

(** The input is in hand: a parse call answered true or the cache gave a
    list. *)
Definition is_loaded (ev : Event) : bool :=
  match ev with
  | EvParse _ true | EvParseIndex _ true | EvPickleLoad _ (Ok (Some _)) => true
  | _ => false
  end.

Section Parts.
Context `{Collaborators}.

(** The calls of lines 77-84 on the file system [fs0]. *)
Definition search_path_calls (o : Options) (fs0 : FS) : list Event :=
  match python_path o with
  | Some p => [EvSysPathAppend p]
  | None => []
  end ++
  match dll_path o with
  | Some d =>
      if String.eqb os_name "nt"
      then EvAddDllDirectory <$> List.filter (isdir fs0) (py_split ";" (py_replace "/" os_sep d))
      else []
  | None => []
  end.

(** Lines 88-150 for the options that pass lines 42-50. *)
Definition after_the_prelude (o : Options) : M unit :=
  Writer <- load_plugin o ;;
  convert o Writer (module_names o, output_paths o).

End Parts.

(** ** The parts of a small concrete world

    A POSIX platform, one installed plugin ([cdWriterDocstring]), a parser
    that reads one element name per [;]-separated field of the XML file,
    and a serializer that stores the element names; then some command lines
    and file systems. *)
Module Demo.

(** [posixpath.join] of two components. *)
Definition posix_join (a b : string) : string :=
  if prefix_chars ["/"%char] (String.list_ascii_of_string b) then b
  else if String.eqb a "" || endswith a "/" then a +:+ b
  else a +:+ "/" +:+ b.

Definition element (n : string) : DocElement :=
  {| kind := KFunction; name := n; qualified_name := n; refid := ""; brief := "";
     detailed := ""; location := None; params := []; returns := ""; children := [] |}.

Definition fields (s : string) : list string :=
  filter (fun x => x <> "") (py_split ";" s).

Definition dumps (v : option (list DocElement)) : string :=
  match v with
  | None => "N"
  | Some l => "L" +:+ fold_right (fun e acc => name e +:+ ";" +:+ acc) "" l
  end.

Definition loads (bytes : string) : result (option (list DocElement)) :=
  match bytes with
  | String "N" EmptyString => Ok None
  | String "L" rest => Ok (Some (element <$> fields rest))
  | _ => Raised (OtherException "UnpicklingError")
  end.

Definition parse_file (fs0 : FS) (path : string) : option string :=
  match read_file fs0 path with
  | Ok content => if prefix_chars ["<"%char] (String.list_ascii_of_string content) then Some content else None
  | Raised _ => None
  end.

Definition demo_parse (p : option string) (fs0 : FS) (path : PyStr) : bool * option string :=
  match path ≫= parse_file fs0 with
  | Some content => (true, Some content)
  | None => (false, p)
  end.

Definition demo_traverse (p : option string) (w : WriterObj) : option (list DocElement) :=
  match p with
  | Some (String _ content) => Some (element <$> fields content)
  | _ => Some []
  end.

Definition demo_import (module package : string) : result WriterClass :=
  if String.eqb module ".cdWriterDocstring" && String.eqb package "doxygenlib"
  then Ok {| defining_module := "doxygenlib.cdWriterDocstring" |}
  else Raised ImportError.

Definition demo_generate (w : WriterObj) (path : string) (docs : option PyList) (fs0 : FS)
    : result FS :=
  write_file fs0 path (dumps (items <$> docs)).

Definition file (content : string) : Node :=
  Regular {| readable := true; writable := true; data := content |}.

Definition argv1 : list string :=
  ["convertDoxygen.py"; "--input"; "usd.xml"; "--output"; "out"; "--package"; "pxr";
   "--module"; "Sdf,Usd"; "--cacheParsing"].

Definition fs1 : FS := {[ "usd.xml" := file "<Open;Close;" ]}.

(** No XML input at all. *)
Definition argv_no_input : list string :=
  ["convertDoxygen.py"; "--output"; "out"; "--package"; "pxr"; "--module"; "Usd"].

(** A format without a plugin. *)
Definition argv_html : list string := argv1 ++ ["--format"; "Html"].

(** An XML file that does not exist. *)
Definition argv_nope : list string :=
  ["convertDoxygen.py"; "--input"; "nope.xml"; "--output"; "out.py"; "--package"; "pxr";
   "--module"; "Sdf"].



(** A cache file that does not unpickle, and one that does. *)
Definition fs_corrupt : FS := <[ "usd.xml.pickle" := file "garbage" ]> fs1.


Definition docstring_writer : WriterClass :=
  {| defining_module := "doxygenlib.cdWriterDocstring" |}.

Definition open_close : list DocElement := [element "Open"; element "Close"].

End Demo.

(** More command lines and file systems. *)
Module Scenes.
Import Demo.

Definition argv_help : list string := argv1 ++ ["--help"].

(** No [--module]. *)
Definition argv_no_module : list string :=
  ["convertDoxygen.py"; "--input"; "usd.xml"; "--output"; "out"; "--package"; "pxr"].

(** A [--module] value that holds no name. *)
Definition argv_commas : list string :=
  ["convertDoxygen.py"; "--input"; "usd.xml"; "--output"; "out"; "--package"; "pxr";
   "--module"; ","].

(** DLL directories, one of which exists. *)
Definition argv_dll : list string := argv1 ++ ["--dllPath"; "C:/bin;C:/missing"].

Definition fs_dll : FS := <[ "C:\bin" := Dir ]> fs1.

(** Two relative components joined the Windows way. *)
Definition nt_join (a b : string) : string := a +:+ "\" +:+ b.

(** An output file of an earlier run. *)
Definition fs_stale : FS := <[ "out/Sdf/__DOC.py" := file "old" ]> fs1.

(** A cache file that can be neither read nor written. *)
Definition locked : File := {| readable := false; writable := false; data := "" |}.

Definition fs_locked : FS := <[ "usd.xml.pickle" := Regular locked ]> fs1.

Definition sdf_writer : WriterObj :=
  {| writer_class := docstring_writer; writer_package := Some "pxr"; writer_module := "Sdf" |}.

End Scenes.


(** * Reasoning about runs *)

(** ** Strings *)

Lemma append_cons (x : ascii) (a b : string) : String x a +:+ b = String x (a +:+ b).
Proof. reflexivity. Qed.

Lemma append_assoc (a b c : string) : (a +:+ b) +:+ c = a +:+ b +:+ c.
Proof. induction a as [|x a IH]; [done | by rewrite !append_cons, IH]. Qed.

Lemma chars_append (a b : string) :
  String.list_ascii_of_string (a +:+ b)
  = String.list_ascii_of_string a ++ String.list_ascii_of_string b.
Proof. induction a as [|x a IH]; [done | by rewrite append_cons; simpl; rewrite IH]. Qed.

(** ** The concrete world *)

Module DemoWorld.

Lemma posix_join_suffix (a b : string) : exists pre, Demo.posix_join a b = pre +:+ b.
Proof.
  unfold Demo.posix_join.
  destruct (prefix_chars _ _); [by exists ""|].
  destruct (_ || _); [by exists a|].
  exists (a +:+ "/"). by rewrite append_assoc.
Qed.

#[export] Instance world : Collaborators := {|
  os_name := "posix";
  os_sep := "/";
  path_join := Demo.posix_join;
  path_join_suffix := posix_join_suffix;
  import_module := Demo.demo_import;
  pickle_dumps := Demo.dumps;
  pickle_loads := Demo.loads;
  Parser := option string;
  Parser_new := None;
  Parser_parse := Demo.demo_parse;
  Parser_parseDoxygenIndexFile := fun p fs0 path => Demo.demo_parse p fs0 (Some path);
  Parser_traverse := Demo.demo_traverse;
  Writer_init := fun _ _ _ _ => Ok tt;
  Writer_generate := Demo.demo_generate;
|}.

End DemoWorld.

(** The same world with a plugin that cannot be loaded: importing it fails
    with a [SyntaxError]. *)
Module BrokenPlugin.

#[export] Instance world : Collaborators := {|
  os_name := "posix";
  os_sep := "/";
  path_join := Demo.posix_join;
  path_join_suffix := DemoWorld.posix_join_suffix;
  import_module := fun _ _ => Raised (OtherException "SyntaxError");
  pickle_dumps := Demo.dumps;
  pickle_loads := Demo.loads;
  Parser := option string;
  Parser_new := None;
  Parser_parse := Demo.demo_parse;
  Parser_parseDoxygenIndexFile := fun p fs0 path => Demo.demo_parse p fs0 (Some path);
  Parser_traverse := Demo.demo_traverse;
  Writer_init := fun _ _ _ _ => Ok tt;
  Writer_generate := Demo.demo_generate;
|}.

End BrokenPlugin.

(** The same world on Windows: [os.name] is ["nt"], the separator is a
    backslash, and two relative components are joined by one. *)
Module Windows.

Lemma nt_join_suffix (a b : string) : exists pre, Scenes.nt_join a b = pre +:+ b.
Proof. exists (a +:+ "\"). unfold Scenes.nt_join. by rewrite append_assoc. Qed.

#[export] Instance world : Collaborators := {|
  os_name := "nt";
  os_sep := "\";
  path_join := Scenes.nt_join;
  path_join_suffix := nt_join_suffix;
  import_module := Demo.demo_import;
  pickle_dumps := Demo.dumps;
  pickle_loads := Demo.loads;
  Parser := option string;
  Parser_new := None;
  Parser_parse := Demo.demo_parse;
  Parser_parseDoxygenIndexFile := fun p fs0 path => Demo.demo_parse p fs0 (Some path);
  Parser_traverse := Demo.demo_traverse;
  Writer_init := fun _ _ _ _ => Ok tt;
  Writer_generate := Demo.demo_generate;
|}.

End Windows.

(** ** The calls of a computation, rule by rule *)

Section Rules.
Context {A B : Type} (E : Event -> bool).

Lemma emits_ret (a : A) : emits E (ret a).
Proof. intros s. constructor. Qed.

Lemma emits_raise e : emits E (@raise A e).
Proof. intros s. constructor. Qed.

Lemma emits_lift (r : result A) : emits E (lift r).
Proof. intros s. constructor. Qed.

Lemma emits_emit ev : E ev = true -> emits E (emit ev).
Proof. intros Hev s. by repeat constructor. Qed.

Lemma emits_bind (m : M A) (k : A -> M B) :
  emits E m -> (forall a, emits E (k a)) -> emits E (bind m k).
Proof.
  intros Hm Hk s. unfold bind. specialize (Hm s).
  destruct (m s) as [[a|e] s1 t1]; [|done].
  specialize (Hk a s1). destruct (k a s1) as [r s2 t2]. simpl in *.
  by apply Forall_app.
Qed.

Lemma emits_try_except (body : M A) caught handler :
  emits E body -> (forall e, emits E (handler e)) -> emits E (try_except body caught handler).
Proof.
  intros Hm Hh s. unfold try_except. specialize (Hm s).
  destruct (body s) as [[a|e] s1 t1]; [done|].
  destruct (caught e); [|done].
  specialize (Hh e s1). destruct (handler e s1) as [r s2 t2]. simpl in *.
  by apply Forall_app.
Qed.

Lemma emits_observe (m : M A) ev :
  emits E m -> (forall r, E (ev r) = true) -> emits E (observe m ev).
Proof.
  intros Hm Hev s. unfold observe. specialize (Hm s).
  destruct (m s) as [r s1 t1]. simpl in *.
  apply Forall_app. split; [done | by repeat constructor].
Qed.

End Rules.

Section UnitRules.
Context (E : Event -> bool).

Lemma emits_get_fs : emits E get_fs.
Proof. intros s. constructor. Qed.

Lemma emits_put_fs fs' : emits E (put_fs fs').
Proof. intros s. constructor. Qed.

Lemma emits_new_list l : emits E (new_list l).
Proof. intros s. constructor. Qed.

Lemma emits_for_each {A} (l : list A) body :
  (forall x, emits E (body x)) -> emits E (for_each l body).
Proof.
  intros Hb. induction l as [|x l IH]; simpl; [apply emits_ret|].
  apply emits_bind; [apply Hb | done].
Qed.

Lemma emits_map_M {A B} (f : A -> M B) (l : list A) :
  (forall x, emits E (f x)) -> emits E (map_M f l).
Proof.
  intros Hf. induction l as [|x l IH]; simpl; [apply emits_ret|].
  apply emits_bind; [apply Hf | intros y].
  apply emits_bind; [done | intros ys; apply emits_ret].
Qed.

End UnitRules.

Ltac unfold_script :=
  unfold prelude, validate, plan_outputs, split_modules, module_output_path,
    clean_outputs, os_remove, extend_search_paths, load_plugin, plugin_name,
    convert, pickle_path_of, load_cache, pickle_load, parse_input,
    module_step, traverse, py_len, pickle_dump, when,
    SetDebugMode, Debug, Usage, Error.

Ltac step_emits :=
  repeat first
    [ apply emits_ret | apply emits_raise | apply emits_lift | apply emits_get_fs
    | apply emits_put_fs | apply emits_new_list
    | apply emits_emit; reflexivity
    | apply emits_bind; [|intros ?]
    | apply emits_try_except; [|intros ?]
    | apply emits_observe; [|intros ?; reflexivity]
    | apply emits_for_each; intros ?
    | apply emits_map_M; intros ?
    | match goal with
      | |- emits _ (match ?x with _ => _ end) => destruct x
      end ].

Section Phases.
Context `{Collaborators}.

(** *** Which calls each part makes *)

Lemma load_plugin_emits o : emits plugin_event (load_plugin o).
Proof. unfold_script. step_emits. Qed.

Lemma load_cache_emits o p : emits cache_event (load_cache o p).
Proof. unfold_script. step_emits. Qed.

Lemma parse_input_emits o parser d : emits parse_event (parse_input o parser d).
Proof. unfold_script. step_emits. Qed.

Lemma module_step_emits o W parser pp d m out :
  emits loop_event (module_step o W parser pp d m out).
Proof. unfold_script. step_emits. Qed.

Lemma module_loop_emits o W parser pp d todo :
  emits loop_event (module_loop o W parser pp d todo).
Proof.
  revert d. induction todo as [|[m out] todo IH]; intros d; simpl; [apply emits_ret|].
  apply emits_bind; [apply module_step_emits | done].
Qed.

End Phases.

Ltac run_simpl := cbn [trace outcome final ret raise] in *.

Ltac run_script :=
  unfold_script;
  cbv beta iota delta [bind ret raise lift emit observe try_except
                       get_fs put_fs new_list trace outcome final app];
  cbn [fs next_oid].

(** Case analysis on an answer of the outside world: the innermost
    scrutinee that blocks the run. *)
Ltac case_oracle :=
  match goal with
  | |- context [match ?x with _ => _ end] =>
      lazymatch x with
      | context [match _ with _ => _ end] => fail
      | _ => destruct x eqn:?
      end
  end;
  cbv beta iota delta [trace outcome final app];
  cbn [fs next_oid].

Section Loop.
Context `{Collaborators}.
Variables (o : Options) (W : WriterClass) (parser : Parser) (pp : string).

Local Abbreviation loop_call := (loop_call o W pp).

Lemma loop_call_weaken names names' docs ev :
  (forall m, In m names -> In m names') ->
  loop_call names docs ev -> loop_call names' docs ev.
Proof.
  intros Hsub (? & Hw & ? & ?). split_and!; try done.
  intros w Hev. destruct (Hw w Hev) as (? & ? & ?). auto.
Qed.

Lemma module_step_warm d m out s :
  let r := module_step o W parser pp (Some d) m out s in
  Forall (fun ev => loop_call [m] (Some d) ev
                    /\ is_traverse ev = false /\ is_pickle_dump ev = false) (trace r)
  /\ (forall d', outcome r = Ok d' -> d' = Some d).
Proof.
  run_script. repeat case_oracle; split;
    repeat (apply Forall_cons; split); try apply Forall_nil;
    unfold loop_call; simpl; try split_and!; try done;
    try (intros; simplify_eq/=; auto; fail).
Qed.

Lemma module_loop_warm todo : forall d s,
  Forall (fun ev => loop_call (fst <$> todo) (Some d) ev
                    /\ is_traverse ev = false /\ is_pickle_dump ev = false)
    (trace (module_loop o W parser pp (Some d) todo s)).
Proof.
  induction todo as [|[m out] todo IH]; intros d s; simpl; [constructor|].
  unfold bind.
  destruct (module_step_warm d m out s) as [Hstep Hout].
  destruct (module_step o W parser pp (Some d) m out s) as [[d'|e] s1 t1]; run_simpl.
  - rewrite (Hout d' eq_refl). specialize (IH d s1).
    destruct (module_loop o W parser pp (Some d) todo s1) as [r s2 t2]. run_simpl.
    apply Forall_app. split.
    + eapply Forall_impl; [exact Hstep|]. intros ev (? & ? & ?). split_and!; try done.
      eapply loop_call_weaken; [|done]. simpl. intros ? [->|[]]. by left.
    + eapply Forall_impl; [apply IH|]. intros ev (? & ? & ?). split_and!; try done.
      eapply loop_call_weaken; [|done]. simpl. auto.
  - eapply Forall_impl; [exact Hstep|]. intros ev (? & ? & ?). split_and!; try done.
    eapply loop_call_weaken; [|done]. simpl. intros ? [->|[]]. by left.
Qed.

Lemma module_step_cold m out s :
  let r := module_step o W parser pp None m out s in
  exists docs,
    Forall (loop_call [m] docs) (trace r)
    /\ length (List.filter is_traverse (trace r)) <= 1
    /\ (forall w x, In (EvTraverse w x) (trace r) -> writer_module w = m)
    /\ (forall p x, In (EvPickleDump p x) (trace r) ->
          use_cached_parsing o = true /\ exists w, In (EvTraverse w x) (trace r))
    /\ (forall d', outcome r = Ok d' -> d' = docs /\ exists d, docs = Some d).
Proof.
  run_script. repeat case_oracle; eexists; split_and!.
  all: try (repeat (apply Forall_cons; split); try apply Forall_nil;
            unfold loop_call; simpl; try split_and!; try done;
            intros; simplify_eq/=; eauto; fail).
  all: try (simpl; lia).
  all: try (intros ? ? Hin; simpl in Hin; destruct_or?; simplify_eq/=; done).
  all: try (intros ? ? Hin; simpl in Hin; destruct_or?; simplify_eq/=;
            try done; split; [done | eexists; simpl; eauto 10]; fail).
  all: try (intros; simplify_eq/=; eauto; fail).
  Unshelve. all: exact None.
Qed.

Lemma module_loop_cold todo s :
  let t := trace (module_loop o W parser pp None todo s) in
  exists docs,
    Forall (loop_call (fst <$> todo) docs) t
    /\ length (List.filter is_traverse t) <= 1
    /\ (forall w x, In (EvTraverse w x) t -> head (fst <$> todo) = Some (writer_module w))
    /\ (forall p x, In (EvPickleDump p x) t ->
          use_cached_parsing o = true /\ exists w, In (EvTraverse w x) t).
Proof.
  destruct todo as [|[m out] todo]; simpl.
  { exists None. split_and!; [constructor | simpl; lia | intros ? ? [] | intros ? ? []]. }
  unfold bind.
  destruct (module_step_cold m out s) as (docs & Hcall & Hlen & Htrav & Hdump & Hout).
  assert (Hweak : forall ev, loop_call [m] docs ev -> loop_call (m :: todo.*1) docs ev).
  { intros ev. apply loop_call_weaken. simpl. intros ? [->|[]]. by left. }
  destruct (module_step o W parser pp None m out s) as [[d'|e] s1 t1]; run_simpl.
  - destruct (Hout d' eq_refl) as [-> [d ->]].
    pose proof (module_loop_warm todo d s1) as Hwarm.
    destruct (module_loop o W parser pp (Some d) todo s1) as [r s2 t2]. run_simpl.
    assert (Hno : forall ev, In ev t2 -> is_traverse ev = false /\ is_pickle_dump ev = false).
    { intros ev Hev. by destruct (proj1 (List.Forall_forall _ _) Hwarm ev Hev) as (_ & ? & ?). }
    exists (Some d). split_and!.
    + apply Forall_app. split; [by eapply Forall_impl|].
      eapply Forall_impl; [exact Hwarm|]. intros ev (? & _).
      eapply loop_call_weaken; [|done]. simpl. auto.
    + rewrite List.filter_app, length_app.
      assert (List.filter is_traverse t2 = []) as ->; [|simpl; lia].
      clear -Hno. induction t2 as [|ev t2 IH]; simpl; [done|].
      destruct (Hno ev (or_introl eq_refl)) as [-> _]. apply IH. intros; apply Hno. by right.
    + intros w x [Hin|Hin]%in_app_or; [by rewrite (Htrav w x Hin)|].
      by destruct (Hno _ Hin).
    + intros p x [Hin|Hin]%in_app_or; [|by destruct (Hno _ Hin)].
      destruct (Hdump p x Hin) as [? [w ?]]. split; [done|].
      exists w. apply in_or_app. by left.
  - exists docs. split_and!; [by eapply Forall_impl | done | | done].
    intros w x Hin. by rewrite (Htrav w x Hin).
Qed.


Lemma module_loop_cold_run todo s r s' t :
  module_loop o W parser pp None todo s = {| outcome := r; final := s'; trace := t |} ->
  exists docs,
    Forall (loop_call (fst <$> todo) docs) t
    /\ length (List.filter is_traverse t) <= 1
    /\ (forall w x, In (EvTraverse w x) t -> head (fst <$> todo) = Some (writer_module w))
    /\ (forall p x, In (EvPickleDump p x) t ->
          use_cached_parsing o = true /\ exists w, In (EvTraverse w x) t).
Proof. intros Hrun. pose proof (module_loop_cold todo s) as Hc. by rewrite Hrun in Hc. Qed.

End Loop.

(** ** The prelude, lines 40-84 *)

Section Prelude.
Context `{Collaborators}.

Lemma validate_valid o s :
  valid_options o = true ->
  validate o s = {| outcome := Ok tt; final := s; trace := [EvSetDebugMode (debug_mode o)] |}.
Proof.
  unfold valid_options. run_script.
  destruct (truthy (xml_file o)), (truthy (xml_index_file o)), (truthy (output_file o)),
    (help o), (truthy (packageName o)), (truthy (modules o)); simpl; intros; by simplify_eq.
Qed.

Lemma validate_invalid o s :
  valid_options o = false ->
  exists ev, is_fatal_message ev = true
    /\ validate o s = {| outcome := Raised (SystemExit 1); final := s;
                         trace := [EvSetDebugMode (debug_mode o); ev] |}.
Proof.
  unfold valid_options. run_script.
  destruct (truthy (xml_file o)), (truthy (xml_index_file o)), (truthy (output_file o)),
    (help o), (truthy (packageName o)), (truthy (modules o)); simpl; intros;
    simplify_eq; eexists; (split; [|reflexivity]).
  all: done.
Qed.

Lemma map_M_pure {A B} (f : A -> M B) (g : A -> B) (l : list A) s :
  (forall x s', f x s' = ret (g x) s') -> map_M f l s = ret (g <$> l) s.
Proof.
  intros Hf. induction l as [|x l IH]; simpl; [done|].
  unfold bind. rewrite Hf. unfold ret at 1. rewrite IH. reflexivity.
Qed.

Lemma truthy_Some v : truthy v = true -> exists s, v = Some s.
Proof. destruct v; [eauto | done]. Qed.

Lemma plan_outputs_valid o s :
  valid_options o = true ->
  plan_outputs o s = ret (module_names o, output_paths o) s.
Proof.
  unfold valid_options. intros Hv.
  repeat (apply andb_prop in Hv as [Hv ?]).
  destruct (truthy_Some (modules o)) as [m Hm]; [done|].
  destruct (truthy_Some (output_file o)) as [out Hout]; [done|].
  unfold plan_outputs, split_modules, output_paths, module_names. rewrite Hm, Hout.
  unfold bind at 1. unfold ret at 1. unfold bind.
  set (names := filter (fun x => x <> "") (py_split "," m)).
  rewrite (map_M_pure _ (fun moduleName =>
             if Nat.eqb (length names) 1 && endswith out ".py" then out
             else path_join (path_join out moduleName) "__DOC.py")); last first.
  { intros x s'. unfold module_output_path. rewrite Hout.
    destruct (_ && _); reflexivity. }
  unfold ret at 1. rewrite !length_fmap, Nat.eqb_refl. reflexivity.
Qed.

Lemma output_paths_py o : Forall (fun p => endswith p ".py" = true) (output_paths o).
Proof.
  unfold output_paths. destruct (output_file o) as [out|]; [|constructor].
  apply Forall_fmap, Forall_true. intros m. simpl.
  destruct (Nat.eqb _ _); simpl.
  - destruct (endswith out ".py") eqn:Hout; [done|].
    destruct (path_join_suffix (path_join out m) "__DOC.py") as [pre ->].
    unfold endswith. by rewrite chars_append, rev_app_distr.
  - destruct (path_join_suffix (path_join out m) "__DOC.py") as [pre ->].
    unfold endswith. by rewrite chars_append, rev_app_distr.
Qed.

Lemma endswith_pickle s : endswith (s +:+ ".pickle") ".py" = false.
Proof. unfold endswith. by rewrite chars_append, rev_app_distr. Qed.

Lemma remove_stale_run x s :
  exists s1 t1,
    (fs0 <- get_fs ;; when (isfile fs0 x) (os_remove x)) s
    = {| outcome := Ok tt; final := s1; trace := t1 |}
    /\ next_oid s1 = next_oid s
    /\ (forall p, p <> x -> fs s1 !! p = fs s !! p).
Proof.
  run_script. destruct (isfile (fs s) x); cbv beta iota delta [app];
    eexists _, _; (split; [reflexivity|]); simpl; split; try done.
  intros p Hp. by apply lookup_delete_ne.
Qed.

Lemma clean_outputs_run l : forall s,
  exists s2 t2,
    clean_outputs l s = {| outcome := Ok tt; final := s2; trace := t2 |}
    /\ next_oid s2 = next_oid s
    /\ (forall p, ~ In p l -> fs s2 !! p = fs s !! p).
Proof.
  unfold clean_outputs.
  induction l as [|x l IH]; intros s; simpl; [by eexists _, _|].
  unfold bind at 1.
  destruct (remove_stale_run x s) as (s1 & t1 & -> & Hoid & Hfs).
  destruct (IH s1) as (s2 & t2 & -> & Hn & Hfs2).
  eexists _, _. split; [reflexivity|]. split; [congruence|].
  intros p Hp. rewrite Hfs2 by tauto. apply Hfs. intros ->. tauto.
Qed.

Lemma for_each_still {A} (l : list A) (body : A -> M unit) s :
  (forall x s', outcome (body x s') = Ok tt /\ final (body x s') = s') ->
  outcome (for_each l body s) = Ok tt /\ final (for_each l body s) = s.
Proof.
  intros Hb. induction l as [|x l IH]; simpl; [done|].
  unfold bind. destruct (Hb x s) as [Ho Hf].
  destruct (body x s) as [r s1 t1]. simpl in *. subst.
  by destruct (for_each l body s).
Qed.

Lemma bind_still {A} (m : M unit) (k : unit -> M A) (a : A) s :
  (outcome (m s) = Ok tt /\ final (m s) = s) ->
  (outcome (k tt s) = Ok a /\ final (k tt s) = s) ->
  outcome (bind m k s) = Ok a /\ final (bind m k s) = s.
Proof.
  intros [Ho Hf] Hk. unfold bind. destruct (m s) as [r s1 t1]. simpl in *. subst.
  by destruct (k tt s).
Qed.

Lemma extend_search_paths_run o s :
  outcome (extend_search_paths o s) = Ok tt /\ final (extend_search_paths o s) = s.
Proof.
  unfold extend_search_paths. apply bind_still.
  - by destruct (python_path o).
  - destruct (dll_path o); [|done]. destruct (String.eqb _ _); [|done].
    apply for_each_still. intros x s'. run_script. by destruct (isdir _ _).
Qed.

Lemma prelude_invalid o s :
  valid_options o = false ->
  exists ev, is_fatal_message ev = true
    /\ prelude o s = {| outcome := Raised (SystemExit 1); final := s;
                        trace := [EvSetDebugMode (debug_mode o); ev] |}.
Proof.
  intros Hv. destruct (validate_invalid o s Hv) as (ev & Hev & Hrun).
  exists ev. split; [done|]. unfold prelude, bind. by rewrite Hrun.
Qed.

Lemma extend_search_paths_emits o :
  emits (fun ev => match ev with
                   | EvSysPathAppend _ | EvAddDllDirectory _ => true
                   | _ => false
                   end) (extend_search_paths o).
Proof. unfold_script. step_emits. Qed.

Lemma clean_outputs_emits l :
  emits (fun ev => match ev with EvRemove _ => true | _ => false end) (clean_outputs l).
Proof. unfold_script. step_emits. Qed.

Lemma prelude_valid o s :
  valid_options o = true ->
  exists s1 t1,
    prelude o s = {| outcome := Ok (module_names o, output_paths o); final := s1; trace := t1 |}
    /\ next_oid s1 = next_oid s
    /\ (forall p, endswith p ".py" = false -> fs s1 !! p = fs s !! p)
    /\ Forall (fun ev => prelude_event ev = true /\ is_fatal_message ev = false) t1.
Proof.
  intros Hv.
  unfold prelude. unfold bind at 1. rewrite (validate_valid o s Hv).
  unfold bind at 1. rewrite (plan_outputs_valid o s Hv). unfold ret at 1.
  unfold bind at 1. cbn [snd].
  pose proof (clean_outputs_emits (output_paths o) s) as Hrem.
  destruct (clean_outputs_run (output_paths o) s) as (s1 & t1 & Hclean & Hc2 & Hc3).
  rewrite Hclean in *. unfold bind at 1.
  destruct (extend_search_paths_run o s1) as [He1 He2].
  pose proof (extend_search_paths_emits o s1) as Hsp.
  destruct (extend_search_paths o s1) as [r2 s2 t2]. simpl in He1, He2, Hsp, Hrem. subst.
  unfold ret. eexists _, _. split; [reflexivity|]. split_and!; try done.
  - intros p Hp. apply Hc3. intros Hin.
    pose proof (proj1 (List.Forall_forall _ _) (output_paths_py o) p Hin) as Hpy.
    simpl in Hpy. congruence.
  - simpl. rewrite app_nil_r. repeat constructor. apply Forall_app. split.
    + eapply Forall_impl; [exact Hrem|]. by intros [].
    + eapply Forall_impl; [exact Hsp|]. by intros [].
Qed.

End Prelude.

(** ** The plugin, the cache and the parse, lines 88-127 *)

Section Stages.
Context `{Collaborators}.

Lemma pickle_path_of_run o s :
  pickle_path_of o s =
  match cache_path o with
  | Some pp => ret pp s
  | None => raise (OtherException "TypeError") s
  end.
Proof. unfold pickle_path_of, cache_path. by repeat case_match. Qed.

Lemma valid_cache_path o : valid_options o = true -> exists pp, cache_path o = Some pp.
Proof.
  unfold valid_options, cache_path. intros Hv.
  repeat (apply andb_prop in Hv as [Hv ?]).
  destruct (xml_index_file o); [eauto|]. destruct (xml_file o); [eauto|done].
Qed.

Lemma load_plugin_run o s :
  load_plugin o s =
  match output_format o with
  | Some fmt =>
      let module := ".cdWriter" +:+ fmt in
      match import_module module "doxygenlib" with
      | Ok W =>
          {| outcome := Ok W; final := s; trace := [EvImport module "doxygenlib" (Ok W)] |}
      | Raised ImportError =>
          {| outcome := Raised (SystemExit 1); final := s;
             trace := [EvImport module "doxygenlib" (Raised ImportError);
                       EvError ("No writer plugin exists for format '" +:+ fmt +:+ "'")] |}
      | Raised e =>
          {| outcome := Raised e; final := s; trace := [EvImport module "doxygenlib" (Raised e)] |}
      end
  | None => {| outcome := Raised (OtherException "TypeError"); final := s; trace := [] |}
  end.
Proof. run_script. by repeat case_oracle. Qed.

Lemma load_plugin_final o s : final (load_plugin o s) = s.
Proof.
  rewrite load_plugin_run. destruct (output_format o); [|done].
  cbv zeta. by destruct (import_module _ _) as [|[]].
Qed.

Lemma load_cache_run o pp s :
  load_cache o pp s =
  if use_cached_parsing o && isfile (fs s) pp then
    match load_result (fs s) pp with
    | Ok (Some l) =>
        let obj := {| oid := next_oid s; items := l |} in
        {| outcome := Ok (Some obj);
           final := {| fs := fs s; next_oid := S (next_oid s) |};
           trace := [EvPickleLoad pp (Ok (Some obj));
                     EvDebug ("Read pre-parsed file: '" +:+ pp +:+ "'")] |}
    | Ok None =>
        {| outcome := Ok None; final := s;
           trace := [EvPickleLoad pp (Ok None);
                     EvDebug ("Read pre-parsed file: '" +:+ pp +:+ "'")] |}
    | Raised e =>
        if is_Exception e then
          {| outcome := Ok None; final := s;
             trace := [EvPickleLoad pp (Raised e);
                       EvDebug ("Error reading pre-parsed file: '" +:+ pp +:+ "'");
                       EvDebug (format_exc e)] |}
        else {| outcome := Raised e; final := s; trace := [EvPickleLoad pp (Raised e)] |}
    end
  else ret None s.
Proof.
  destruct s as [fs0 n]. unfold load_result. run_script.
  by repeat case_oracle.
Qed.

Lemma parse_input_run o parser d s :
  parse_input o parser d s =
  match d with
  | Some _ => ret parser s
  | None =>
      match xml_index_file o with
      | Some index =>
          let ok := fst (Parser_parseDoxygenIndexFile parser (fs s) index) in
          {| outcome := if ok then Ok (snd (Parser_parseDoxygenIndexFile parser (fs s) index))
                        else Raised (SystemExit 1);
             final := s;
             trace := EvParseIndex index ok
                      :: (if ok then []
                          else [EvError ("Could not parse XML index file: " +:+ index)]) |}
      | None =>
          let ok := fst (Parser_parse parser (fs s) (xml_file o)) in
          {| outcome := if ok then Ok (snd (Parser_parse parser (fs s) (xml_file o)))
                        else Raised (SystemExit 1);
             final := s;
             trace := EvParse (xml_file o) ok
                      :: (if ok then []
                          else [EvError ("Could not parse XML file: "
                                         +:+ py_str (xml_file o))]) |}
      end
  end.
Proof.
  run_script. destruct d; [done|]. destruct (xml_index_file o) as [index|].
  - by destruct (Parser_parseDoxygenIndexFile parser (fs s) index) as [[] ?].
  - by destruct (Parser_parse parser (fs s) (xml_file o)) as [[] ?].
Qed.

(** The run of the whole script when the options do not pass lines 42-50. *)
Lemma script_invalid o s :
  valid_options o = false ->
  exists ev, is_fatal_message ev = true
    /\ script o s = {| outcome := Raised (SystemExit 1); final := s;
                       trace := [EvSetDebugMode (debug_mode o); ev] |}.
Proof.
  intros Hv. destruct (prelude_invalid o s Hv) as (ev & Hev & Hrun).
  exists ev. split; [done|]. unfold script, bind. by rewrite Hrun.
Qed.

(** The run of the whole script when they do: the prelude, the import,
    and after a successful import the conversion. *)
Lemma script_valid o s :
  valid_options o = true ->
  exists s1 t1,
    next_oid s1 = next_oid s
    /\ (forall p, endswith p ".py" = false -> fs s1 !! p = fs s !! p)
    /\ Forall (fun ev => prelude_event ev = true /\ is_fatal_message ev = false) t1
    /\ script o s =
       match load_plugin o s1 with
       | {| outcome := Ok W; final := _; trace := t2 |} =>
           match convert o W (module_names o, output_paths o) s1 with
           | {| outcome := r; final := s3; trace := t3 |} =>
               {| outcome := r; final := s3; trace := t1 ++ t2 ++ t3 |}
           end
       | {| outcome := Raised e; final := _; trace := t2 |} =>
           {| outcome := Raised e; final := s1; trace := t1 ++ t2 |}
       end.
Proof.
  intros Hv. destruct (prelude_valid o s Hv) as (s1 & t1 & Hrun & Hoid & Hfs & Ht1).
  exists s1, t1. split_and!; try done.
  unfold script. unfold bind at 1. rewrite Hrun. unfold bind.
  pose proof (load_plugin_final o s1) as Hfinal.
  destruct (load_plugin o s1) as [[W|e] s2 t2]; simpl in Hfinal; subst s2; [|done].
  by destruct (convert o W _ s1).
Qed.

(** The conversion stage by stage: the announcement, the cache, the parse
    and the module loop. *)
Lemma convert_run o W plan s1 :
  convert o W plan s1 =
  let announce :=
    EvPrint ("Converting Doxygen comments to " +:+ py_str (output_format o) +:+ " format...") in
  match cache_path o with
  | None =>
      {| outcome := Raised (OtherException "TypeError"); final := s1; trace := [announce] |}
  | Some pp =>
      match load_cache o pp s1 with
      | {| outcome := Raised e; final := s2; trace := t2 |} =>
          {| outcome := Raised e; final := s2; trace := announce :: t2 |}
      | {| outcome := Ok d; final := s2; trace := t2 |} =>
          match parse_input o Parser_new d s2 with
          | {| outcome := Raised e; final := s3; trace := t3 |} =>
              {| outcome := Raised e; final := s3; trace := announce :: t2 ++ t3 |}
          | {| outcome := Ok parser; final := s3; trace := t3 |} =>
              match module_loop o W parser pp d (zip (fst plan) (snd plan)) s3 with
              | {| outcome := r; final := s4; trace := t4 |} =>
                  {| outcome := r; final := s4; trace := announce :: t2 ++ t3 ++ t4 |}
              end
          end
      end
  end.
Proof.
  unfold convert. unfold bind at 1. unfold emit at 1. unfold bind at 1.
  rewrite pickle_path_of_run. cbv zeta.
  destruct (cache_path o) as [pp|]; [|done]. unfold ret at 1. unfold bind.
  destruct (load_cache o pp s1) as [[d|e] s2 t2]; [|done].
  destruct (parse_input o Parser_new d s2) as [[parser|e] s3 t3]; [|done].
  by destruct (module_loop o W parser pp d _ s3).
Qed.

End Stages.

(** ** The stages of a run *)

Section Shape.
Context `{Collaborators}.

Lemma script_stages o s0 : stages o s0 (script o s0).
Proof.
  destruct (valid_options o) eqn:Hv.
  2: { destruct (script_invalid o s0 Hv) as (ev & Hev & ->). by constructor. }
  destruct (script_valid o s0 Hv) as (s1 & t1 & Hoid & Hfs & Ht1 & ->).
  assert (Hpre : after_prelude s0 s1 t1) by done.
  pose proof (load_plugin_final o s1) as Hfinal.
  destruct (load_plugin o s1) as [[W|e] s1' t2] eqn:Hplugin; simpl in Hfinal; subst s1';
    [|by econstructor].
  rewrite convert_run. cbv zeta. fold (announce o).
  destruct (valid_cache_path o Hv) as [pp Hpp]. rewrite Hpp.
  destruct (load_cache o pp s1) as [[d|e] s2 t3] eqn:Hcache; [|by econstructor].
  destruct (parse_input o Parser_new d s2) as [[parser|e] s3 t4] eqn:Hparse;
    [|by econstructor].
  cbn [fst snd].
  destruct (module_loop o W parser pp d _ s3) as [r s4 t5] eqn:Hloop.
  by econstructor.
Qed.

(** A file system is consulted about the cache through its entry at the
    cache path only. *)
Lemma isfile_entry (fs1 fs2 : FS) p : fs1 !! p = fs2 !! p -> isfile fs1 p = isfile fs2 p.
Proof. unfold isfile. by intros ->. Qed.


Lemma cache_path_pickle o pp : cache_path o = Some pp -> endswith pp ".py" = false.
Proof.
  unfold cache_path. intros Hpp.
  repeat case_match; simplify_eq; apply endswith_pickle.
Qed.


End Shape.

Lemma emits_run {A} (E : Event -> bool) (m : M A) s r s' t :
  emits E m -> m s = {| outcome := r; final := s'; trace := t |} ->
  Forall (fun ev => E ev = true) t.
Proof. intros Hm Hrun. specialize (Hm s). by rewrite Hrun in Hm. Qed.

Lemma Forall_In {A} (P : A -> Prop) (l : list A) x : Forall P l -> In x l -> P x.
Proof. intros Hl. by apply List.Forall_forall. Qed.

(** Collect what the stage equations in the context say about the calls of
    each stage. *)
Ltac stage_facts :=
  repeat match goal with
  | Hpre : after_prelude _ _ _ |- _ => destruct Hpre as (? & ? & ?)
  | Hr : load_plugin ?o ?s = {| outcome := _; final := _; trace := ?t |} |- _ =>
      lazymatch goal with
      | _ : Forall (fun ev => plugin_event ev = true) t |- _ => fail
      | _ => pose proof (emits_run _ _ _ _ _ _ (load_plugin_emits o) Hr)
      end
  | Hr : load_cache ?o ?pp ?s = {| outcome := _; final := _; trace := ?t |} |- _ =>
      lazymatch goal with
      | _ : Forall (fun ev => cache_event ev = true) t |- _ => fail
      | _ => pose proof (emits_run _ _ _ _ _ _ (load_cache_emits o pp) Hr)
      end
  | Hr : parse_input ?o ?p ?d ?s = {| outcome := _; final := _; trace := ?t |} |- _ =>
      lazymatch goal with
      | _ : Forall (fun ev => parse_event ev = true) t |- _ => fail
      | _ => pose proof (emits_run _ _ _ _ _ _ (parse_input_emits o p d) Hr)
      end
  | Hr : module_loop ?o ?W ?p ?pp ?d ?todo ?s = {| outcome := _; final := _; trace := ?t |} |- _ =>
      lazymatch goal with
      | _ : Forall (fun ev => loop_event ev = true) t |- _ => fail
      | _ => pose proof (emits_run _ _ _ _ _ _ (module_loop_emits o W p pp d todo) Hr)
      end
  end.

(** Split a goal about a trace along its stages and close each part with
    what is known of the stage, by cases on the event. *)
Ltac by_stage :=
  repeat first [ apply Forall_app; split | apply Forall_cons; split | apply Forall_nil ];
  try match goal with
      | Hf : Forall _ ?t |- Forall _ ?t =>
          solve [ eapply Forall_impl; [exact Hf|];
                  intros []; simpl; intros; intuition (congruence || eauto) ]
      end;
  try solve [ unfold announce; simpl; intros; intuition congruence ].

(** ** Whole runs *)

Section Runs.
Context `{Collaborators}.




Lemma no_hit (E : Event -> bool) (t : list Event) :
  (forall ev, E ev = true -> is_hit ev = false) ->
  Forall (fun ev => E ev = true) t -> existsb is_hit t = false.
Proof.
  intros HE Ht. induction Ht as [|ev t Hev _ IH]; simpl; [done|].
  by rewrite (HE ev Hev), IH.
Qed.







End Runs.

(** * The claims *)

Section Claims.
Context `{Collaborators}.

(** C1.  When the command line supplies neither [--input] nor [--inputIndex]
    (both values falsy), or no [--package], or no [--module], the run ends
    with [SystemExit] and a non-zero status, the last call is a message for
    the user ([Usage] or [Error]), and nothing was parsed, traversed,
    generated, serialized or removed. *)
Theorem C1_missing_arguments_are_fatal (argv : list string) (fs0 : FS) :
  let o := read_options argv in
  (truthy (xml_file o) = false /\ truthy (xml_index_file o) = false)
  \/ truthy (packageName o) = false
  \/ truthy (modules o) = false ->
  let r := main argv fs0 in
  outcome r = Raised (SystemExit 1)
  /\ exit_status (outcome r) <> 0
  /\ (exists ev, last (trace r) = Some ev /\ is_fatal_message ev = true)
  /\ Forall (fun ev => is_processing ev = false) (trace r)
  /\ fs (final r) = fs0.
Proof.
  intros o Hmissing r.
  assert (Hv : valid_options o = false).
  { unfold valid_options. destruct Hmissing as [[-> ->]|[-> | ->]]; simpl;
      rewrite ?andb_false_r; done. }
  destruct (script_invalid o (initial fs0) Hv) as (ev & Hev & Hrun).
  subst r. unfold main. fold o. rewrite Hrun. simpl. split_and!; try done.
  - by exists ev.
  - repeat constructor. by destruct ev.
Qed.


(** C3.  [parse] and [parseDoxygenIndexFile] answer a boolean (the type of
    the collaborator has no exception for them); whenever one of them
    answers false, the run ends with [SystemExit 1] right after the [Error]
    message of line 124 or 127, and no writer was created, nothing was
    traversed, serialized or generated. *)
Theorem C3_parse_failure_aborts (argv : list string) (fs0 : FS) (ev : Event) :
  let r := main argv fs0 in
  In ev (trace r) ->
  is_failed_parse ev = true ->
  outcome r = Raised (SystemExit 1)
  /\ exit_status (outcome r) <> 0
  /\ last (trace r) = Some (EvError (parse_error_message ev))
  /\ Forall (fun ev' => is_writer_init ev' = false /\ is_traverse ev' = false
                        /\ is_pickle_dump ev' = false /\ is_generate ev' = false) (trace r).
Proof.
  intros r Hin Hfail. subst r. unfold main in *.
  set (o := read_options argv) in *.
  destruct (script_stages o (initial fs0)); cbn [trace outcome] in *; stage_facts.
  all: repeat (apply in_app_or in Hin as [Hin|Hin] || destruct Hin as [Heq|Hin]);
       try done;
       try (subst; simpl in *; done);
       try (subst; match goal with
                   | Hm : is_fatal_message ?e = true |- _ => by destruct e
                   end);
       try (match goal with
            | Hf : Forall _ ?t, Hi : In ?e ?t |- _ =>
                pose proof (Forall_In _ _ _ Hf Hi) as Hev;
                destruct e as [| | | | | | | | | |? []|? []| | | |]; simpl in *;
                intuition congruence
            end).
  all: match goal with
       | Hp : parse_input _ _ _ _ = _ |- _ =>
           rewrite parse_input_run in Hp; cbv zeta in Hp; unfold ret in Hp
       end;
       repeat case_match; simplify_eq/=; try done;
       repeat (destruct Hin as [Heq|Hin]); simplify_eq/=; try done.
  all: split_and!; try done;
       try (repeat (rewrite last_app || rewrite last_cons); simpl; done); by_stage.
Qed.








End Claims.

(** * Further properties of the script *)

(** ** Strings *)

Section Split.

Lemma py_split_pieces sep s :
  Forall (fun piece => ~ In sep (String.list_ascii_of_string piece)) (py_split sep s).
Proof.
  induction s as [|c s IH]; simpl; [repeat constructor; by intros []|].
  destruct (Ascii.eqb_spec c sep) as [->|Hc].
  - constructor; [by intros []|done].
  - destruct (py_split sep s) as [|piece pieces]; [repeat constructor; simpl; tauto|].
    inversion IH; subst. constructor; [|done]. simpl. tauto.
Qed.

Lemma py_split_whole sep s :
  ~ In sep (String.list_ascii_of_string s) -> py_split sep s = [s].
Proof.
  induction s as [|c s IH]; simpl; [done|]. intros Hs.
  destruct (Ascii.eqb_spec c sep) as [->|Hc]; [tauto|].
  rewrite IH by tauto. done.
Qed.

Lemma py_split_append sep a b :
  ~ In sep (String.list_ascii_of_string a) ->
  py_split sep (a +:+ String sep b) = a :: py_split sep b.
Proof.
  induction a as [|c a IH]; intros Ha.
  - simpl. by rewrite Ascii.eqb_refl.
  - rewrite append_cons. simpl in *.
    destruct (Ascii.eqb_spec c sep) as [->|Hc]; [tauto|].
    rewrite IH by tauto. done.
Qed.

Lemma py_split_join sep l :
  l <> [] ->
  Forall (fun x => ~ In sep (String.list_ascii_of_string x)) l ->
  py_split sep (py_join sep l) = l.
Proof.
  induction l as [|x l IH]; [done|]. intros _ Hl. inversion Hl; subst.
  destruct l as [|y l]; [by apply py_split_whole|].
  change (py_join sep (x :: y :: l)) with (x +:+ String sep (py_join sep (y :: l))).
  rewrite py_split_append by done. by rewrite IH.
Qed.

End Split.

(** ** The command line and the plan, lines 40-65 *)

Section Validation.
Context `{Collaborators}.

Lemma validate_run o s :
  validate o s =
  {| outcome := if wants_usage o || negb (truthy (packageName o)) || negb (truthy (modules o))
                then Raised (SystemExit 1) else Ok tt;
     final := s;
     trace := EvSetDebugMode (debug_mode o)
              :: (if wants_usage o then [EvUsage]
                  else if negb (truthy (packageName o))
                       then [EvError "Required option --package not specified"]
                       else if negb (truthy (modules o))
                            then [EvError "Required option --module not specified"]
                            else []) |}.
Proof.
  unfold wants_usage. run_script.
  by destruct (truthy (xml_file o)), (truthy (xml_index_file o)), (truthy (output_file o)),
    (help o), (truthy (packageName o)), (truthy (modules o)).
Qed.

Lemma script_rejected o s :
  wants_usage o || negb (truthy (packageName o)) || negb (truthy (modules o)) = true ->
  script o s =
  {| outcome := Raised (SystemExit 1);
     final := s;
     trace := EvSetDebugMode (debug_mode o)
              :: (if wants_usage o then [EvUsage]
                  else if negb (truthy (packageName o))
                       then [EvError "Required option --package not specified"]
                       else [EvError "Required option --module not specified"]) |}.
Proof.
  intros Hrej. unfold script, prelude. unfold bind. rewrite validate_run, Hrej.
  destruct (wants_usage o); [done|]. destruct (truthy (packageName o)); [|done].
  by destruct (truthy (modules o)).
Qed.

(** X1.  Line 42 in full: when both inputs are missing, or [--output] has
    no value, or [--help]/[-h] is given, the run consists of
    [SetDebugMode] and [Usage], ends with [SystemExit 1] and leaves the
    file system as it was; this holds whatever [--package] and [--module]
    are, the usage check comes first. *)
Theorem usage_when_output_missing_or_help (argv : list string) (fs0 : FS) :
  let o := read_options argv in
  (truthy (xml_file o) = false /\ truthy (xml_index_file o) = false)
  \/ truthy (output_file o) = false
  \/ help o = true ->
  main argv fs0 =
  {| outcome := Raised (SystemExit 1);
     final := initial fs0;
     trace := [EvSetDebugMode (debug_mode o); EvUsage] |}.
Proof.
  intros o Hcond. unfold main. fold o.
  assert (Hu : wants_usage o = true).
  { unfold wants_usage. destruct Hcond as [[-> ->]|[-> | ->]]; simpl;
      rewrite ?orb_true_r; done. }
  rewrite script_rejected by (by rewrite Hu). by rewrite Hu.
Qed.

(** X2.  Lines 45-50: when the usage check passes and [--package] or
    [--module] has no value, the run consists of [SetDebugMode] and one
    [Error], ends with [SystemExit 1] and leaves the file system as it
    was.  The message names [--package] when the package is missing, also
    when the module is missing too, and [--module] otherwise. *)
Theorem required_options_in_order (argv : list string) (fs0 : FS) :
  let o := read_options argv in
  wants_usage o = false ->
  truthy (packageName o) = false \/ truthy (modules o) = false ->
  main argv fs0 =
  {| outcome := Raised (SystemExit 1);
     final := initial fs0;
     trace := [EvSetDebugMode (debug_mode o);
               EvError (if truthy (packageName o)
                        then "Required option --module not specified"
                        else "Required option --package not specified")] |}.
Proof.
  intros o Hu Hmissing. unfold main. fold o.
  rewrite script_rejected; rewrite Hu.
  - by destruct (truthy (packageName o)).
  - destruct Hmissing as [-> | ->]; simpl; by rewrite ?orb_true_r.
Qed.

(** X3.  Line 53: every name of the module list is non-empty and holds no
    comma, whatever [--module] is. *)
Theorem module_names_are_proper (o : Options) :
  Forall proper_name (module_names o).
Proof.
  unfold module_names. destruct (modules o) as [m|]; [|constructor].
  apply List.Forall_forall. intros x Hx.
  apply list_elem_of_In, list_elem_of_filter in Hx as [Hne Hx].
  split; [done|].
  apply list_elem_of_In in Hx.
  exact (Forall_In _ _ _ (py_split_pieces "," m) Hx).
Qed.

(** X4.  Line 53 undoes a comma join: when [--module] is the join of
    proper names, the module list is those names, in order. *)
Theorem module_names_of_joined (o : Options) (l : list string) :
  Forall proper_name l ->
  modules o = Some (py_join "," l) ->
  module_names o = l.
Proof.
  intros Hl Hm. unfold module_names. rewrite Hm.
  destruct l as [|x l]; [done|].
  rewrite py_split_join; [|done|by eapply Forall_impl; [exact Hl|]; intros ? [? ?]].
  clear Hm. generalize (x :: l) Hl. clear.
  induction 1 as [|y l' [Hy _] _ IH]; [done|].
  rewrite filter_cons_True by done. by rewrite IH.
Qed.

Lemma map_M_length {A B} (f : A -> M B) (l : list A) : forall s ys,
  outcome (map_M f l s) = Ok ys -> length ys = length l.
Proof.
  induction l as [|x l IH]; intros s ys; simpl.
  - unfold ret. simpl. by intros [= <-].
  - unfold bind. destruct (f x s) as [[y|e] s1 t1]; [|done].
    specialize (IH s1). destruct (map_M f l s1) as [[ys'|e] s2 t2]; [|done].
    unfold ret. simpl. intros [= <-]. simpl. by rewrite (IH ys').
Qed.

Lemma map_M_raises {A B} (f : A -> M B) (P : exn -> Prop) (l : list A) : forall s e,
  (forall x s' e', outcome (f x s') = Raised e' -> P e') ->
  outcome (map_M f l s) = Raised e -> P e.
Proof.
  intros s e Hf. revert s. induction l as [|x l IH]; intros s; simpl; [done|].
  unfold bind. specialize (Hf x s). destruct (f x s) as [[y|e'] s1 t1]; simpl in *.
  - specialize (IH s1). destruct (map_M f l s1) as [[ys'|e''] s2 t2]; [done|].
    simpl in *. intros [= <-]. by apply IH.
  - intros [= <-]. by apply Hf.
Qed.

(** X5.  Lines 53-65: the assertion of line 65 never fires; when the plan
    is computed, its modules are the module list and there is one output
    file per module. *)
Theorem output_list_matches_module_list (o : Options) (s : State) :
  outcome (plan_outputs o s) <> Raised (OtherException "AssertionError")
  /\ forall names outs,
       outcome (plan_outputs o s) = Ok (names, outs) ->
       names = module_names o /\ length outs = length names.
Proof.
  destruct (plan_outputs o s) as [r s' t] eqn:Hrun. cbn [outcome].
  revert Hrun. unfold plan_outputs, split_modules, module_names.
  destruct (modules o) as [m|]; [|intros [= <- _ _]; by split].
  set (names := filter (fun x => x <> "") (py_split "," m)).
  unfold bind at 1. unfold ret at 1. unfold bind.
  pose proof (map_M_length (module_output_path o names) names s) as Hlen.
  pose proof (map_M_raises (module_output_path o names)
                (fun e => e <> OtherException "AssertionError") names s) as Hraise.
  destruct (map_M (module_output_path o names) names s) as [[outs|e] s1 t1]; simpl in *.
  - rewrite (Hlen outs eq_refl), Nat.eqb_refl. unfold ret. intros [= <- _ _].
    split; [done|]. intros ? ? ?. simplify_eq. split; [done|]. by apply Hlen.
  - intros [= <- _ _]. split; [|done]. intros [= ->]. eapply Hraise; [|done..].
    intros x s'' e'. unfold module_output_path. repeat case_match; simpl; congruence.
Qed.

End Validation.

(** ** The prelude, exactly *)

Section Early.
Context `{Collaborators}.

Lemma emits_weaken {A} (E E' : Event -> bool) (m : M A) :
  (forall ev, E ev = true -> E' ev = true) -> emits E m -> emits E' m.
Proof. intros HE Hm s. eapply Forall_impl; [apply Hm | done]. Qed.

(** *** Lines 69-71 *)

Lemma remove_stale_exact x s :
  (fs0 <- get_fs ;; when (isfile fs0 x) (os_remove x)) s
  = if isfile (fs s) x
    then {| outcome := Ok tt;
            final := {| fs := delete x (fs s); next_oid := next_oid s |};
            trace := [EvRemove x] |}
    else {| outcome := Ok tt; final := s; trace := [] |}.
Proof. run_script. by destruct (isfile (fs s) x). Qed.

Lemma isfile_delete (fs0 : FS) x p : isfile (delete x fs0) p = true -> isfile fs0 p = true.
Proof.
  unfold isfile. destruct (decide (p = x)) as [->|Hp].
  - by rewrite lookup_delete_eq.
  - by rewrite lookup_delete_ne.
Qed.

Lemma clean_outputs_trace l : forall s,
  Forall (fun ev => exists p, ev = EvRemove p /\ In p l /\ isfile (fs s) p = true)
    (trace (clean_outputs l s)).
Proof.
  unfold clean_outputs.
  induction l as [|x l IH]; intros s; simpl; [constructor|].
  unfold bind at 1. rewrite remove_stale_exact.
  destruct (isfile (fs s) x) eqn:Hx.
  - match goal with |- context [for_each l ?b ?s1] =>
      specialize (IH s1); destruct (for_each l b s1) as [r s2 t2] end.
    simpl in *. constructor; [by eauto|].
    eapply Forall_impl; [exact IH|]. intros ev (p & -> & Hp & Hfile).
    exists p. split_and!; [done | by right | by eapply isfile_delete].
  - specialize (IH s). destruct (for_each l _ s) as [r s2 t2]. simpl in *.
    eapply Forall_impl; [exact IH|]. intros ev (p & -> & Hp & Hfile).
    exists p. split_and!; [done | by right | done].
Qed.

Lemma clean_outputs_fs l : forall s p,
  fs (final (clean_outputs l s)) !! p
  = if bool_decide (p ∈ l) && isfile (fs s) p then None else fs s !! p.
Proof.
  unfold clean_outputs.
  induction l as [|x l IH]; intros s p; simpl; [done|].
  unfold bind at 1. rewrite remove_stale_exact.
  destruct (isfile (fs s) x) eqn:Hx.
  - match goal with |- context [for_each l ?b ?s1] =>
      specialize (IH s1 p); destruct (for_each l b s1) as [r s2 t2] end.
    simpl in *. rewrite IH. clear IH.
    destruct (decide (p = x)) as [->|Hp].
    + rewrite Hx, (bool_decide_eq_true_2 (x ∈ x :: l)) by left.
      unfold isfile. rewrite lookup_delete_eq. by rewrite andb_false_r.
    + unfold isfile. rewrite lookup_delete_ne by done.
      rewrite (bool_decide_ext (p ∈ x :: l) (p ∈ l)); [done|].
      rewrite elem_of_cons. intuition congruence.
  - specialize (IH s p). destruct (for_each l _ s) as [r s2 t2]. simpl in *.
    rewrite IH. clear IH.
    destruct (decide (p = x)) as [->|Hp].
    + by rewrite Hx, !andb_false_r.
    + rewrite (bool_decide_ext (p ∈ x :: l) (p ∈ l)); [done|].
      rewrite elem_of_cons. intuition congruence.
Qed.

(** *** Lines 77-84 *)

Lemma add_dll_directories_run l s :
  for_each l (fun path => fs0 <- get_fs ;;
                          when (isdir fs0 path) (emit (EvAddDllDirectory path))) s
  = {| outcome := Ok tt; final := s;
       trace := EvAddDllDirectory <$> List.filter (isdir (fs s)) l |}.
Proof.
  induction l as [|x l IH]; simpl; [done|].
  unfold bind at 1.
  assert ((fs0 <- get_fs ;; when (isdir fs0 x) (emit (EvAddDllDirectory x))) s
          = {| outcome := Ok tt; final := s;
               trace := if isdir (fs s) x then [EvAddDllDirectory x] else [] |}) as ->.
  { run_script. by destruct (isdir (fs s) x). }
  rewrite IH. by destruct (isdir (fs s) x).
Qed.

Lemma extend_search_paths_exact o s :
  extend_search_paths o s
  = {| outcome := Ok tt; final := s; trace := search_path_calls o (fs s) |}.
Proof.
  unfold extend_search_paths, search_path_calls. unfold bind.
  destruct (python_path o) as [p|]; unfold emit, ret;
    (destruct (dll_path o) as [d|]; [|done]);
    (destruct (String.eqb os_name "nt"); [|done]);
    by rewrite add_dll_directories_run.
Qed.

Lemma prelude_valid_exact o s :
  valid_options o = true ->
  let cleaned := clean_outputs (output_paths o) s in
  prelude o s
  = {| outcome := Ok (module_names o, output_paths o);
       final := final cleaned;
       trace := EvSetDebugMode (debug_mode o)
                :: trace cleaned ++ search_path_calls o (fs (final cleaned)) |}.
Proof.
  intros Hv cleaned. subst cleaned.
  unfold prelude. unfold bind at 1. rewrite (validate_valid o s Hv).
  unfold bind at 1. rewrite (plan_outputs_valid o s Hv). unfold ret at 1.
  unfold bind at 1. cbn [snd].
  destruct (clean_outputs_run (output_paths o) s) as (s1 & t1 & Hclean & _).
  rewrite Hclean. unfold bind at 1. rewrite extend_search_paths_exact.
  unfold ret. simpl. by rewrite app_nil_r.
Qed.

(** *** The script as the prelude followed by the rest *)

Lemma script_split o s :
  valid_options o = true ->
  script o s
  = {| outcome := outcome (after_the_prelude o (final (prelude o s)));
       final := final (after_the_prelude o (final (prelude o s)));
       trace := trace (prelude o s) ++ trace (after_the_prelude o (final (prelude o s))) |}.
Proof.
  intros Hv. destruct (prelude_valid o s Hv) as (s1 & t1 & Hrun & _).
  unfold script. unfold bind at 1. rewrite Hrun. cbn [final trace].
  fold (after_the_prelude o). by destruct (after_the_prelude o s1).
Qed.

Lemma convert_emits o W plan : emits late_event (convert o W plan).
Proof.
  unfold convert. apply emits_bind; [by apply emits_emit|]. intros _.
  apply emits_bind; [unfold pickle_path_of; step_emits|]. intros pp.
  apply emits_bind.
  { eapply emits_weaken; [|apply load_cache_emits]. by intros []. }
  intros d. apply emits_bind.
  { eapply emits_weaken; [|apply parse_input_emits]. by intros []. }
  intros parser. eapply emits_weaken; [|apply module_loop_emits]. by intros [].
Qed.

Lemma after_the_prelude_emits o : emits late_event (after_the_prelude o).
Proof.
  unfold after_the_prelude. apply emits_bind.
  - eapply emits_weaken; [|apply load_plugin_emits]. by intros [].
  - intros W. apply convert_emits.
Qed.

(** Where a call of the prelude's kind can come from. *)
Lemma early_call o s0 ev :
  late_event ev = false ->
  In ev (trace (script o s0)) ->
  (valid_options o = false /\ (ev = EvSetDebugMode (debug_mode o) \/ is_fatal_message ev = true))
  \/ (valid_options o = true /\ In ev (trace (prelude o s0))).
Proof.
  intros Hearly Hin. destruct (valid_options o) eqn:Hv.
  - right. split; [done|]. rewrite script_split in Hin by done. cbn [trace] in Hin.
    apply in_app_or in Hin as [Hin|Hin]; [done|].
    pose proof (Forall_In _ _ _ (after_the_prelude_emits o _) Hin) as Hlate.
    simpl in Hlate. congruence.
  - left. split; [done|]. destruct (script_invalid o s0 Hv) as (ev' & Hev' & Hrun).
    rewrite Hrun in Hin. destruct Hin as [<-|[<-|[]]]; auto.
Qed.

Lemma search_path_calls_spec o fs0 ev :
  In ev (search_path_calls o fs0) ->
  (exists p, ev = EvSysPathAppend p /\ python_path o = Some p)
  \/ (exists p d, ev = EvAddDllDirectory p /\ os_name = "nt" /\ dll_path o = Some d
                  /\ In p (py_split ";" (py_replace "/" os_sep d)) /\ isdir fs0 p = true).
Proof.
  unfold search_path_calls. intros [Hin|Hin]%in_app_or.
  - left. destruct (python_path o) as [p|]; [|done]. destruct Hin as [<-|[]]. eauto.
  - right. destruct (dll_path o) as [d|]; [|done].
    destruct (String.eqb_spec os_name "nt") as [Hnt|]; [|done].
    apply list_elem_of_In, list_elem_of_fmap in Hin as (p & -> & Hp).
    apply list_elem_of_In, List.filter_In in Hp as [Hp Hdir].
    exists p, d. by split_and!.
Qed.

(** X6.  Lines 69-71: a path the run removes is one of the planned output
    files, ends in [.py], and was a regular file when the run started. *)
Theorem only_stale_outputs_are_removed (argv : list string) (fs0 : FS) (p : string) :
  let o := read_options argv in
  In (EvRemove p) (trace (main argv fs0)) ->
  In p (output_paths o) /\ endswith p ".py" = true /\ isfile fs0 p = true.
Proof.
  intros o Hin. unfold main in Hin. fold o in Hin.
  apply early_call in Hin as [[_ [?|?]]|[Hv Hin]]; [done | done | | done].
  rewrite prelude_valid_exact in Hin by done. cbn [trace] in Hin.
  destruct Hin as [?|[Hin|Hin]%in_app_or]; [done| |].
  - pose proof (Forall_In _ _ _ (clean_outputs_trace _ _) Hin) as (p' & [= <-] & Hp & Hfile).
    split_and!; [done | | done].
    exact (Forall_In _ _ _ (output_paths_py o) Hp).
  - apply search_path_calls_spec in Hin as [(? & ? & _)|(? & ? & ? & _)]; done.
Qed.


(** *** The file system from the prelude to the first writer *)

Lemma load_cache_fs o pp s : fs (final (load_cache o pp s)) = fs s.
Proof. rewrite load_cache_run. unfold ret. by repeat case_match. Qed.

Lemma parse_input_final o parser d s : final (parse_input o parser d s) = s.
Proof. rewrite parse_input_run. unfold ret. by repeat case_match. Qed.






End Early.

(** ** The module loop and the cache, call by call *)

Section Calls.
Context `{Collaborators}.

Lemma omap_quiet {B} (f : Event -> option B) (E : Event -> bool) (t : list Event) :
  (forall ev, E ev = true -> f ev = None) ->
  Forall (fun ev => E ev = true) t -> omap f t = [].
Proof.
  intros HE Ht. induction Ht as [|ev t Hev _ IH]; [done|].
  simpl. by rewrite (HE ev Hev).
Qed.

Lemma filter_quiet (g E : Event -> bool) (t : list Event) :
  (forall ev, E ev = true -> g ev = false) ->
  Forall (fun ev => E ev = true) t -> List.filter g t = [].
Proof.
  intros HE Ht. induction Ht as [|ev t Hev _ IH]; [done|].
  simpl. by rewrite (HE ev Hev).
Qed.

Lemma prelude_quiet (t : list Event) :
  Forall (fun ev => prelude_event ev = true /\ is_fatal_message ev = false) t ->
  Forall (fun ev => prelude_event ev = true) t.
Proof. intros Ht. eapply Forall_impl; [exact Ht|]. by intros ? [? ?]. Qed.

(** *** The module loop, call by call *)

Lemma module_step_targets o W parser pp d m out s :
  let r := module_step o W parser pp d m out s in
  writers_created (trace r) = [m]
  /\ (generate_targets (trace r) = [(m, out)]
      \/ generate_targets (trace r) = [] /\ exists e, outcome r = Raised e)
  /\ length (List.filter is_pickle_dump (trace r)) <= 1
  /\ (forall p x, In (EvPickleDump p x) (trace r) -> exists l, x = Some l).
Proof.
  unfold writers_created, generate_targets.
  destruct d; run_script; repeat case_oracle; split_and!; simpl;
    try done; try lia; eauto.
  all: intros ? ? Hin; destruct_or?; simplify_eq; eauto.
Qed.

Lemma module_loop_targets o W parser pp todo : forall d s,
  let r := module_loop o W parser pp d todo s in
  generate_targets (trace r) `prefix_of` todo
  /\ writers_created (trace r) `prefix_of` todo.*1
  /\ length (writers_created (trace r)) <= S (length (generate_targets (trace r)))
  /\ (outcome r = Ok tt ->
      generate_targets (trace r) = todo /\ writers_created (trace r) = todo.*1).
Proof.
  induction todo as [|[m out] todo IH]; intros d s; simpl.
  { split_and!; try done. simpl. lia. }
  unfold bind.
  destruct (module_step_targets o W parser pp d m out s) as (Hw & Hg & _).
  destruct (module_step o W parser pp d m out s) as [[d'|e] s1 t1]; run_simpl.
  - destruct Hg as [Hg|[_ [? ?]]]; [|done].
    specialize (IH d' s1). cbv zeta in IH.
    destruct (module_loop o W parser pp d' todo s1) as [r s2 t2]. run_simpl.
    destruct IH as (Hp1 & Hp2 & Hlen & Hok).
    unfold generate_targets, writers_created in *.
    rewrite !omap_app, Hw, Hg. simpl. split_and!.
    + by apply prefix_cons.
    + by apply prefix_cons.
    + lia.
    + intros Hr. destruct (Hok Hr) as [-> ->]. done.
  - rewrite Hw. split_and!; [| |simpl; lia|done].
    + destruct Hg as [->|[-> _]]; [apply prefix_cons|]; apply prefix_nil.
    + apply prefix_cons, prefix_nil.
Qed.

Lemma module_loop_dumps o W parser pp todo : forall d s,
  let t := trace (module_loop o W parser pp d todo s) in
  length (List.filter is_pickle_dump t) <= 1
  /\ (forall p x, In (EvPickleDump p x) t -> d = None /\ p = pp /\ exists l, x = Some l).
Proof.
  intros [d|] s; cbv zeta.
  { pose proof (module_loop_warm o W parser pp todo d s) as Hwarm. split.
    - rewrite (filter_quiet _ (fun ev => negb (is_pickle_dump ev))); [simpl; lia| |].
      + intros ev. by destruct (is_pickle_dump ev).
      + eapply Forall_impl; [exact Hwarm|]. by intros ev (_ & _ & ->).
    - intros p x Hin. by pose proof (Forall_In _ _ _ Hwarm Hin) as (_ & _ & ?). }
  destruct todo as [|[m out] todo]; simpl.
  { split; [simpl; lia | by intros ? ? []]. }
  unfold bind.
  destruct (module_step_targets o W parser pp None m out s) as (_ & _ & Hlen & Hlist).
  destruct (module_step_cold o W parser pp m out s) as (docs & Hcall & _ & _ & _ & Hout).
  destruct (module_step o W parser pp None m out s) as [[d'|e] s1 t1]; run_simpl.
  - destruct (Hout d' eq_refl) as [-> [d ->]].
    pose proof (module_loop_warm o W parser pp todo d s1) as Hwarm.
    destruct (module_loop o W parser pp (Some d) todo s1) as [r s2 t2]. run_simpl.
    assert (Hnone : List.filter is_pickle_dump t2 = []).
    { apply (filter_quiet _ (fun ev => negb (is_pickle_dump ev))).
      - intros ev. by destruct (is_pickle_dump ev).
      - eapply Forall_impl; [exact Hwarm|]. by intros ev (_ & _ & ->). }
    split.
    + rewrite List.filter_app, length_app, Hnone. simpl. lia.
    + intros p x [Hin|Hin]%in_app_or.
      * split_and!; [done | | by eapply Hlist].
        pose proof (Forall_In _ _ _ Hcall Hin) as (_ & _ & _ & Hp). by apply Hp.
      * by pose proof (Forall_In _ _ _ Hwarm Hin) as (_ & _ & ?).
  - split; [done|]. intros p x Hin. split_and!; [done | | by eapply Hlist].
    pose proof (Forall_In _ _ _ Hcall Hin) as (_ & _ & _ & Hp). by apply Hp.
Qed.

Lemma valid_names o :
  valid_options o = true ->
  (zip (module_names o) (output_paths o)).*1 = module_names o.
Proof.
  intros Hv. apply fst_zip. unfold output_paths.
  destruct (output_file o) eqn:Hout; [by rewrite length_fmap|].
  unfold valid_options in Hv. rewrite Hout in Hv. simpl in Hv.
  by rewrite andb_false_r in Hv.
Qed.

(** *** Whole runs *)

Lemma run_targets o s0 :
  let r := script o s0 in
  generate_targets (trace r) `prefix_of` zip (module_names o) (output_paths o)
  /\ writers_created (trace r) `prefix_of` module_names o
  /\ length (writers_created (trace r)) <= S (length (generate_targets (trace r)))
  /\ (outcome r = Ok tt ->
      generate_targets (trace r) = zip (module_names o) (output_paths o)
      /\ writers_created (trace r) = module_names o).
Proof.
  cbv zeta.
  destruct (script_stages o s0) as
    [ ev Hv Hev | s1 t1 e' t2 Hv Hpre Hplugin
      | s1 t1 W' t2 pp' e' s2 t3 Hv Hpre Hplugin Hpp' Hcache
      | s1 t1 W' t2 pp' d s2 t3 e' s3 t4 Hv Hpre Hplugin Hpp' Hcache Hparse
      | s1 t1 W' t2 pp' d s2 t3 parser s3 t4 r s4 t5 Hv Hpre Hplugin Hpp' Hcache Hparse Hloop ];
    cbn [trace outcome]; stage_facts.
  1: { destruct ev; try done; simpl; split_and!; try done; try apply prefix_nil; lia. }
  all: match goal with Hf : Forall (fun ev => prelude_event ev = true /\ _) _ |- _ =>
         apply prelude_quiet in Hf end.
  all: unfold generate_targets, writers_created.
  all: repeat first [ rewrite omap_app
                    | progress cbn [omap list_omap announce generate_target created_writer] ].
  all: repeat match goal with
         | Hf : Forall (fun ev => ?E ev = true) ?t |- context [omap ?f ?t] =>
             lazymatch E with
             | loop_event => fail
             | _ => rewrite (omap_quiet f E t) by (first [by intros [] | done])
             end
         end.
  1-3: cbn [app length]; split_and!; try apply prefix_nil; try lia; done.
  cbn [app].
  pose proof (module_loop_targets o W' parser pp'
                (zip (module_names o) (output_paths o)) d s3) as Hloop'.
  cbv zeta in Hloop'. rewrite Hloop in Hloop'. cbn [trace outcome] in Hloop'.
  by rewrite valid_names in Hloop' by done.
Qed.

Lemma load_cache_miss o pp s s2 t :
  load_cache o pp s = {| outcome := Ok None; final := s2; trace := t |} ->
  existsb is_hit t = false.
Proof.
  rewrite load_cache_run. unfold ret. intros Hrun.
  repeat case_match; by simplify_eq.
Qed.

Lemma load_cache_loads o pp s r s2 t :
  load_cache o pp s = {| outcome := r; final := s2; trace := t |} ->
  length (List.filter is_pickle_load t) <= 1
  /\ (forall p x, In (EvPickleLoad p x) t ->
        p = pp /\ use_cached_parsing o = true /\ isfile (fs s) pp = true).
Proof.
  rewrite load_cache_run. unfold ret. intros Hrun.
  destruct (use_cached_parsing o), (isfile (fs s) pp); cbn [andb] in Hrun;
    repeat case_match; simplify_eq; (split; [simpl; lia|]);
    intros p x Hin; simpl in Hin; destruct_or?; by simplify_eq.
Qed.

Lemma run_cache_events o fs0 :
  let r := script o (initial fs0) in
  let t := trace r in
  length (List.filter is_pickle_load t) <= 1
  /\ length (List.filter is_pickle_dump t) <= 1
  /\ (forall p x, In (EvPickleLoad p x) t ->
        use_cached_parsing o = true /\ cache_path o = Some p /\ isfile fs0 p = true)
  /\ (forall p x, In (EvPickleDump p x) t ->
        use_cached_parsing o = true /\ cache_path o = Some p
        /\ cache_hit r = false /\ exists l, x = Some l).
Proof.
  cbv zeta.
  destruct (script_stages o (initial fs0)) as
    [ ev Hv Hev | s1 t1 e' t2 Hv Hpre Hplugin
      | s1 t1 W' t2 pp' e' s2 t3 Hv Hpre Hplugin Hpp' Hcache
      | s1 t1 W' t2 pp' d s2 t3 e' s3 t4 Hv Hpre Hplugin Hpp' Hcache Hparse
      | s1 t1 W' t2 pp' d s2 t3 parser s3 t4 r s4 t5 Hv Hpre Hplugin Hpp' Hcache Hparse Hloop ];
    unfold cache_hit; cbn [trace outcome].
  1: { destruct ev; try done; simpl; split_and!; try lia;
       intros ? ? Hin; destruct_or?; by simplify_eq. }
  2-4: assert (Hentry : fs s1 !! pp' = fs0 !! pp')
         by (destruct Hpre as (_ & Hfs & _); try apply Hfs; by try eapply cache_path_pickle).
  all: stage_facts.
  all: match goal with Hf : Forall (fun ev => prelude_event ev = true /\ _) _ |- _ =>
         apply prelude_quiet in Hf end.
  all: try (pose proof (load_cache_loads _ _ _ _ _ _ Hcache) as [Hloads Hload];
            rewrite (isfile_entry _ _ _ Hentry) in Hload).
  all: try (pose proof (module_loop_dumps o W' parser pp'
                          (zip (module_names o) (output_paths o)) d s3) as Hd;
            cbv zeta in Hd; rewrite Hloop in Hd; cbn [trace] in Hd;
            destruct Hd as [Hdumps Hdump]).
  all: repeat first [rewrite List.filter_app
                    | progress cbn [List.filter is_pickle_load is_pickle_dump announce]].
  all: repeat match goal with
         | Hf : Forall (fun ev => ?E ev = true) ?t |- context [List.filter ?g ?t] =>
             rewrite (filter_quiet g E t) by (first [by intros [] | done])
         end.
  all: cbn [app length]; rewrite ?app_nil_r.
  all: split_and!; try lia; try done.
  all: intros p x Hin;
       repeat (apply in_app_or in Hin as [Hin|Hin] || destruct Hin as [Heq|Hin]);
       try done;
       try (match goal with
            | Hl : forall p x, In (EvPickleLoad p x) ?t -> _, Hi : In (EvPickleLoad _ _) ?t |- _ =>
                destruct (Hl _ _ Hi) as (-> & ? & ?); by split_and!
            end);
       try (match goal with
            | Hf : Forall (fun ev => _ ev = true) ?t, Hi : In _ ?t |- _ =>
                pose proof (Forall_In _ _ _ Hf Hi) as Hev; simpl in Hev; congruence
            end).
  destruct (Hdump p x Hin) as (-> & -> & Hx).
  destruct (module_loop_cold_run _ _ _ _ _ _ _ _ _ Hloop) as (_ & _ & _ & _ & Hcold).
  destruct (Hcold _ _ Hin) as [Hc _].
  split_and!; try done.
  repeat first [rewrite existsb_app | progress cbn [existsb is_hit announce orb]].
  rewrite (load_cache_miss _ _ _ _ _ Hcache).
  repeat match goal with
         | Hf : Forall (fun ev => ?E ev = true) ?t |- context [existsb is_hit ?t] =>
             rewrite (no_hit E t) by (first [by intros [] | done])
         end.
  done.
Qed.

Lemma existsb_quiet (g E : Event -> bool) (t : list Event) :
  (forall ev, E ev = true -> g ev = false) ->
  Forall (fun ev => E ev = true) t -> existsb g t = false.
Proof.
  intros HE Ht. induction Ht as [|ev t Hev _ IH]; simpl; [done|].
  by rewrite (HE ev Hev), IH.
Qed.

Lemma elem_of_zip_fmap {A B} (f : A -> B) (l : list A) a b :
  (a, b) ∈ zip l (f <$> l) -> a ∈ l /\ b = f a.
Proof.
  induction l as [|x l IH]; simpl; [by intros ?%elem_of_nil|].
  intros [Heq|Hin]%elem_of_cons.
  - simplify_eq. split; [left|done].
  - destruct (IH Hin). split; [by right|done].
Qed.

Lemma load_cache_not_loaded o pp s r s2 t :
  load_cache o pp s = {| outcome := r; final := s2; trace := t |} ->
  (forall d, r <> Ok (Some d)) ->
  existsb is_loaded t = false.
Proof.
  rewrite load_cache_run. unfold ret. intros Hrun Hr.
  repeat case_match; simplify_eq; try done. by destruct (Hr _ eq_refl).
Qed.

Lemma parse_input_raised o parser d s e s3 t :
  parse_input o parser d s = {| outcome := Raised e; final := s3; trace := t |} ->
  d = None /\ existsb is_loaded t = false.
Proof.
  rewrite parse_input_run. unfold ret. cbv zeta. intros Hrun.
  repeat case_match; by simplify_eq.
Qed.

(** X10.  Lines 134-150: the [generate] calls of a run are, in order, a
    prefix of the modules paired with their output files, the writers
    created a prefix of the module list, at most one writer is created
    without its [generate] call; a run that ends normally has created a
    writer and called [generate] for every module, in the order of
    [--module]. *)
Theorem generate_follows_module_order (argv : list string) (fs0 : FS) :
  let o := read_options argv in
  let r := main argv fs0 in
  generate_targets (trace r) `prefix_of` zip (module_names o) (output_paths o)
  /\ writers_created (trace r) `prefix_of` module_names o
  /\ length (writers_created (trace r)) <= S (length (generate_targets (trace r)))
  /\ (outcome r = Ok tt ->
      generate_targets (trace r) = zip (module_names o) (output_paths o)
      /\ writers_created (trace r) = module_names o).
Proof. intros o r. apply run_targets. Qed.

(** X11.  Lines 56-63 at the [generate] calls: the module of the writer
    is on the module list, and the file it is asked to write is
    [--output] itself when there is one module and [--output] ends in
    [.py], else [<output>/<module>/__DOC.py]. *)
Theorem generate_output_path
    (argv : list string) (fs0 : FS) (out : string) (w : WriterObj) (p : string)
    (x : option PyList) :
  let o := read_options argv in
  output_file o = Some out ->
  In (EvGenerate w p x) (trace (main argv fs0)) ->
  In (writer_module w) (module_names o)
  /\ p = if Nat.eqb (length (module_names o)) 1 && endswith out ".py" then out
         else path_join (path_join out (writer_module w)) "__DOC.py".
Proof.
  intros o Hout Hin. unfold main in Hin. fold o in Hin.
  destruct (run_targets o (initial fs0)) as ([k Hk] & _).
  assert (Hz : (writer_module w, p) ∈ zip (module_names o) (output_paths o)).
  { rewrite Hk. apply elem_of_app. left. apply list_elem_of_omap.
    exists (EvGenerate w p x). split; [by apply list_elem_of_In | done]. }
  unfold output_paths in Hz. rewrite Hout in Hz.
  apply elem_of_zip_fmap in Hz as [Hm ->]. split; [by apply list_elem_of_In | done].
Qed.

(** X12.  Lines 112-115: [pickle.load] is called at most once, only with
    [--cacheParsing], only on the cache path, and only when that path was
    a regular file when the run started. *)
Theorem cache_is_read_only_on_request (argv : list string) (fs0 : FS) :
  let o := read_options argv in
  let t := trace (main argv fs0) in
  length (List.filter is_pickle_load t) <= 1
  /\ (forall p x, In (EvPickleLoad p x) t ->
        use_cached_parsing o = true /\ cache_path o = Some p /\ isfile fs0 p = true).
Proof.
  intros o t. destruct (run_cache_events o fs0) as (? & _ & ? & _). done.
Qed.

(** X13.  Lines 147-149: [pickle.dump] is called at most once, only with
    [--cacheParsing], only on the cache path, never in a run that is a
    cache hit, and what it is given is a list (never [None]). *)
Theorem cache_is_written_at_most_once (argv : list string) (fs0 : FS) :
  let o := read_options argv in
  let r := main argv fs0 in
  length (List.filter is_pickle_dump (trace r)) <= 1
  /\ (forall p x, In (EvPickleDump p x) (trace r) ->
        use_cached_parsing o = true /\ cache_path o = Some p
        /\ cache_hit r = false /\ exists l, x = Some l).
Proof.
  intros o r. destruct (run_cache_events o fs0) as (_ & ? & _ & ?). done.
Qed.

(** X14.  A [--module] value without a name in it (only commas): no
    writer is created, nothing is traversed, serialized or generated; and
    once the input is parsed or loaded from the cache the run ends
    normally, with no output. *)
Theorem no_module_no_output (argv : list string) (fs0 : FS) :
  let o := read_options argv in
  let r := main argv fs0 in
  module_names o = [] ->
  Forall (fun ev => is_writer_init ev = false /\ is_traverse ev = false
                    /\ is_pickle_dump ev = false /\ is_generate ev = false) (trace r)
  /\ (existsb is_loaded (trace r) = true -> outcome r = Ok tt).
Proof.
  intros o r Hnone. subst r. unfold main. fold o.
  destruct (script_stages o (initial fs0)) as
    [ ev Hv Hev | s1 t1 e' t2 Hv Hpre Hplugin
      | s1 t1 W' t2 pp' e' s2 t3 Hv Hpre Hplugin Hpp' Hcache
      | s1 t1 W' t2 pp' d s2 t3 e' s3 t4 Hv Hpre Hplugin Hpp' Hcache Hparse
      | s1 t1 W' t2 pp' d s2 t3 parser s3 t4 r s4 t5 Hv Hpre Hplugin Hpp' Hcache Hparse Hloop ];
    cbn [trace outcome]; stage_facts.
  1: { split; [repeat constructor; by destruct ev | by destruct ev]. }
  all: match goal with Hf : Forall (fun ev => prelude_event ev = true /\ _) _ |- _ =>
         apply prelude_quiet in Hf end.
  4: { rewrite Hnone in Hloop. simpl in Hloop. unfold ret in Hloop. simplify_eq.
       split; [by_stage | done]. }
  all: split; [by_stage|].
  all: repeat first [rewrite existsb_app | progress cbn [existsb is_loaded announce orb]].
  all: try match goal with
           | Hp : parse_input _ _ _ _ = _ |- _ =>
               destruct (parse_input_raised _ _ _ _ _ _ _ Hp) as [-> ->]
           end.
  all: try rewrite (load_cache_not_loaded _ _ _ _ _ _ Hcache) by done.
  all: repeat match goal with
         | Hf : Forall (fun ev => ?E ev = true) ?t |- context [existsb is_loaded ?t] =>
             rewrite (existsb_quiet is_loaded E t) by (first [by intros [] | done])
         end.
  all: done.
Qed.




(** X18.  Lines 144-149 are not guarded: in the first iteration of a run
    with [--cacheParsing] whose cache file is not writable, the traversal
    is followed by a [pickle.dump] that raises [PermissionError]; the
    iteration ends there, the file system is as it was and [generate] is
    not called. *)
Theorem unwritable_cache_is_fatal
    (o : Options) (W : WriterClass) (parser : Parser) (pp m out : string) (s : State)
    (f : File) (l : list DocElement) :
  let w := {| writer_class := W; writer_package := packageName o; writer_module := m |} in
  let r := module_step o W parser pp None m out s in
  use_cached_parsing o = true ->
  fs s !! pp = Some (Regular f) ->
  writable f = false ->
  Writer_init W (packageName o) m (fs s) = Ok tt ->
  Parser_traverse parser w = Some l ->
  outcome r = Raised (OtherException "PermissionError")
  /\ fs (final r) = fs s
  /\ last (trace r) = Some (EvPickleDump pp (Some {| oid := next_oid s; items := l |}))
  /\ Forall (fun ev => is_generate ev = false) (trace r).
Proof.
  intros w r Hc Hfile Hw Hinit Htraverse. subst r w.
  run_script. rewrite Hinit, Htraverse, Hc.
  cbv beta iota delta [trace outcome final app]. cbn [fs next_oid].
  unfold write_file. rewrite Hfile, Hw.
  cbv beta iota delta [trace outcome final app]. cbn [fs next_oid].
  split_and!; try done. by repeat constructor.
Qed.

Lemma load_cache_loaded o pp s d s2 t :
  load_cache o pp s = {| outcome := Ok (Some d); final := s2; trace := t |} ->
  existsb is_loaded t = true.
Proof.
  rewrite load_cache_run. unfold ret. intros Hrun.
  repeat case_match; by simplify_eq.
Qed.

Lemma parse_input_calls o parser d s r s3 t :
  parse_input o parser d s = {| outcome := r; final := s3; trace := t |} ->
  length (List.filter is_parse t) <= 1
  /\ (forall ev, In ev t -> is_parse ev = true -> d = None)
  /\ (forall p ok, In (EvParse p ok) t -> xml_index_file o = None /\ p = xml_file o)
  /\ (forall p ok, In (EvParseIndex p ok) t -> xml_index_file o = Some p)
  /\ (d = None -> forall parser', r = Ok parser' -> existsb is_loaded t = true).
Proof.
  rewrite parse_input_run. unfold ret. cbv zeta. intros Hrun.
  destruct d; [simplify_eq; split_and!; simpl; try lia; try done|].
  destruct (xml_index_file o) as [index|]; simplify_eq;
    match goal with |- context [fst ?x] => destruct (fst x) end;
    split_and!; simpl; try lia; try done;
    try (intros ? ? Hin; destruct_or?; by simplify_eq).
Qed.

(** X19.  A run that ends normally or that creates a writer had valid
    options, printed the announcement of line 95, and has its input in
    hand: a parse call answered true or the cache gave a list. *)
Theorem no_writer_without_input (argv : list string) (fs0 : FS) :
  let o := read_options argv in
  let r := main argv fs0 in
  outcome r = Ok tt \/ existsb is_writer_init (trace r) = true ->
  valid_options o = true
  /\ existsb is_loaded (trace r) = true
  /\ In (announce o) (trace r).
Proof.
  intros o r. subst r. unfold main. fold o.
  destruct (script_stages o (initial fs0)) as
    [ ev Hv Hev | s1 t1 e' t2 Hv Hpre Hplugin
      | s1 t1 W' t2 pp' e' s2 t3 Hv Hpre Hplugin Hpp' Hcache
      | s1 t1 W' t2 pp' d s2 t3 e' s3 t4 Hv Hpre Hplugin Hpp' Hcache Hparse
      | s1 t1 W' t2 pp' d s2 t3 parser s3 t4 r s4 t5 Hv Hpre Hplugin Hpp' Hcache Hparse Hloop ];
    cbn [trace outcome]; stage_facts.
  1: { intros [?|Hw]; [done|]. by destruct ev. }
  all: match goal with Hf : Forall (fun ev => prelude_event ev = true /\ _) _ |- _ =>
         apply prelude_quiet in Hf end.
  1-3: intros [Hok|Hw]; [rewrite load_plugin_run in Hplugin;
                         try rewrite load_cache_run in Hcache;
                         try rewrite parse_input_run in Hparse;
                         unfold ret in *; cbv zeta in *;
                         repeat case_match; simplify_eq|];
       exfalso; revert Hw;
       repeat first [rewrite existsb_app | progress cbn [existsb is_writer_init announce orb]];
       repeat match goal with
         | Hf : Forall (fun ev => ?E ev = true) ?t |- context [existsb is_writer_init ?t] =>
             rewrite (existsb_quiet is_writer_init E t) by (first [by intros [] | done])
         end; done.
  intros _. split_and!; [done| |].
  - repeat first [rewrite existsb_app | progress cbn [existsb is_loaded announce orb]].
    destruct d as [d|].
    + rewrite (load_cache_loaded _ _ _ _ _ _ Hcache). by rewrite !orb_true_r.
    + destruct (parse_input_calls _ _ _ _ _ _ _ Hparse) as (_ & _ & _ & _ & Hloaded).
      rewrite (Hloaded eq_refl parser eq_refl). by rewrite !orb_true_r.
  - apply in_or_app. right. apply in_or_app. right. by left.
Qed.

(** X20.  Lines 121-127: at most one parse call per run;
    [parser.parse] is called only without [--inputIndex] and on
    [--input], [parseDoxygenIndexFile] only on [--inputIndex]; and no run
    both parses and hits the cache. *)
Theorem parse_at_most_once (argv : list string) (fs0 : FS) :
  let o := read_options argv in
  let r := main argv fs0 in
  length (List.filter is_parse (trace r)) <= 1
  /\ (forall p ok, In (EvParse p ok) (trace r) ->
        xml_index_file o = None /\ p = xml_file o /\ cache_hit r = false)
  /\ (forall p ok, In (EvParseIndex p ok) (trace r) ->
        xml_index_file o = Some p /\ cache_hit r = false).
Proof.
  intros o r. subst r. unfold main. fold o.
  destruct (script_stages o (initial fs0)) as
    [ ev Hv Hev | s1 t1 e' t2 Hv Hpre Hplugin
      | s1 t1 W' t2 pp' e' s2 t3 Hv Hpre Hplugin Hpp' Hcache
      | s1 t1 W' t2 pp' d s2 t3 e' s3 t4 Hv Hpre Hplugin Hpp' Hcache Hparse
      | s1 t1 W' t2 pp' d s2 t3 parser s3 t4 r s4 t5 Hv Hpre Hplugin Hpp' Hcache Hparse Hloop ];
    unfold cache_hit; cbn [trace outcome]; stage_facts.
  1: { destruct ev; try done; simpl; split_and!; try lia;
       intros ? ? Hin; destruct_or?; by simplify_eq. }
  all: match goal with Hf : Forall (fun ev => prelude_event ev = true /\ _) _ |- _ =>
         apply prelude_quiet in Hf end.
  all: try (destruct (parse_input_calls _ _ _ _ _ _ _ Hparse)
              as (Hcount & Hnone & Hfile & Hindex & _)).
  all: repeat first [rewrite List.filter_app | progress cbn [List.filter is_parse announce]].
  all: repeat match goal with
         | Hf : Forall (fun ev => ?E ev = true) ?t |- context [List.filter is_parse ?t] =>
             lazymatch E with
             | parse_event => fail
             | _ => rewrite (filter_quiet is_parse E t) by (first [by intros [] | done])
             end
         end.
  all: cbn [app length]; rewrite ?app_nil_r.
  all: split_and!; try lia; try done.
  all: intros p ok Hin;
       repeat (apply in_app_or in Hin as [Hin|Hin] || destruct Hin as [Heq|Hin]);
       try done;
       try (match goal with
            | Hf : Forall (fun ev => _ ev = true) ?t, Hi : In _ ?t |- _ =>
                pose proof (Forall_In _ _ _ Hf Hi) as Hev; simpl in Hev; congruence
            end).
  all: pose proof (Hnone _ Hin eq_refl) as ->.
  all: repeat first [rewrite existsb_app | progress cbn [existsb is_hit announce orb]].
  all: rewrite (load_cache_miss _ _ _ _ _ Hcache).
  all: repeat match goal with
         | Hf : Forall (fun ev => ?E ev = true) ?t |- context [existsb is_hit ?t] =>
             rewrite (no_hit E t) by (first [by intros [] | done])
         end.
  all: first [ destruct (Hfile _ _ Hin) as [? ?] | pose proof (Hindex _ _ Hin) ].
  all: by split_and!.
Qed.

(** *** What the script leaves alone *)

Lemma write_file_frame (fs1 fs2 : FS) p bytes q :
  write_file fs1 p bytes = Ok fs2 -> q <> p -> fs2 !! q = fs1 !! q.
Proof.
  unfold write_file. intros Hw Hq.
  repeat case_match; simplify_eq; by rewrite lookup_insert_ne.
Qed.

Section Frame.
Variable q : string.
Hypothesis generate_frame :
  forall w p docs (fs1 fs2 : FS),
    p <> q -> Writer_generate w p docs fs1 = Ok fs2 -> fs2 !! q = fs1 !! q.

Lemma module_step_frame o W parser pp d m out s :
  pp <> q -> out <> q ->
  fs (final (module_step o W parser pp d m out s)) !! q = fs s !! q.
Proof.
  intros Hpp Hout.
  destruct d; run_script; repeat case_oracle; try done.
  all: repeat match goal with
         | Hg : Writer_generate _ _ _ _ = Ok _ |- _ =>
             apply generate_frame in Hg; [rewrite Hg|done]; clear Hg
         | Hw : write_file _ _ _ = Ok _ |- _ =>
             eapply write_file_frame in Hw; [rewrite Hw|by apply not_eq_sym]; clear Hw
         end.
  all: done.
Qed.

Lemma module_loop_frame o W parser pp todo : forall d s,
  pp <> q -> (forall m out, In (m, out) todo -> out <> q) ->
  fs (final (module_loop o W parser pp d todo s)) !! q = fs s !! q.
Proof.
  induction todo as [|[m out] todo IH]; intros d s Hpp Hout; simpl; [done|].
  unfold bind.
  pose proof (module_step_frame o W parser pp d m out s Hpp) as Hstep.
  destruct (module_step o W parser pp d m out s) as [[d'|e] s1 t1]; simpl in Hstep.
  - specialize (IH d' s1 Hpp).
    destruct (module_loop o W parser pp d' todo s1) as [r s2 t2]. simpl in *.
    rewrite IH by eauto. apply Hstep. apply (Hout m). by left.
  - apply Hstep. apply (Hout m). by left.
Qed.

Lemma after_the_prelude_frame o s :
  ~ In q (output_paths o) -> cache_path o <> Some q ->
  fs (final (after_the_prelude o s)) !! q = fs s !! q.
Proof.
  intros Hq Hpp.
  unfold after_the_prelude. unfold bind.
  pose proof (load_plugin_final o s) as Hfinal.
  destruct (load_plugin o s) as [[W|e] s1 t1]; simpl in Hfinal; subst s1; [|done].
  rewrite convert_run. cbv zeta. destruct (cache_path o) as [pp|]; [|done].
  pose proof (load_cache_fs o pp s) as Hfs.
  destruct (load_cache o pp s) as [[d|e] s2 t2]; simpl in Hfs; [|by rewrite <- Hfs].
  pose proof (parse_input_final o Parser_new d s2) as Hp.
  destruct (parse_input o Parser_new d s2) as [[parser|e] s3 t3]; simpl in Hp; subst s3;
    [|by rewrite <- Hfs].
  cbn [fst snd].
  pose proof (module_loop_frame o W parser pp (zip (module_names o) (output_paths o)) d s2)
    as Hloop.
  destruct (module_loop o W parser pp d _ s2) as [r s4 t4]. cbn [final] in *.
  rewrite Hloop, Hfs; [done|congruence|].
  intros m out Hin ->. apply Hq.
  apply list_elem_of_In in Hin. apply elem_of_zip_r in Hin. by apply list_elem_of_In.
Qed.

Lemma run_frame o fs0 :
  ~ In q (output_paths o) -> cache_path o <> Some q ->
  fs (final (script o (initial fs0))) !! q = fs0 !! q.
Proof.
  intros Hq Hpp. destruct (valid_options o) eqn:Hv.
  - rewrite script_split by done. cbn [final].
    rewrite after_the_prelude_frame by done.
    rewrite prelude_valid_exact by done. cbn [final].
    rewrite clean_outputs_fs. rewrite bool_decide_eq_false_2; [done|].
    by intros ?%list_elem_of_In.
  - by destruct (script_invalid o (initial fs0) Hv) as (ev & _ & ->).
Qed.

End Frame.

(** X21.  What the script leaves alone: when the writer's [generate]
    changes no entry [q] other than the file it is asked to write, a path
    [q] that is neither a planned output file nor the cache path is at the
    end of the run what it was at the start. *)
Theorem only_outputs_and_cache_change (argv : list string) (fs0 : FS) (q : string) :
  let o := read_options argv in
  (forall w p docs (fs1 fs2 : FS),
      p <> q -> Writer_generate w p docs fs1 = Ok fs2 -> fs2 !! q = fs1 !! q) ->
  ~ In q (output_paths o) ->
  cache_path o <> Some q ->
  fs (final (main argv fs0)) !! q = fs0 !! q.
Proof. intros o Hgen Hq Hpp. by apply run_frame. Qed.

(** X22.  Line 40: [SetDebugMode] is the first call of every run, with
    the value of [--debug]/[-d], and it is called once. *)
Theorem debug_mode_is_set_first (argv : list string) (fs0 : FS) :
  let o := read_options argv in
  let t := trace (main argv fs0) in
  head t = Some (EvSetDebugMode (debug_mode o))
  /\ length (List.filter is_set_debug_mode t) = 1.
Proof.
  intros o t. subst t. unfold main. fold o.
  destruct (valid_options o) eqn:Hv.
  - rewrite script_split by done. cbn [trace].
    rewrite prelude_valid_exact by done. cbn [trace final app head]. split; [done|].
    set (s1 := final (clean_outputs (output_paths o) (initial fs0))).
    pose proof (after_the_prelude_emits o s1) as Hlate.
    pose proof (clean_outputs_emits (output_paths o) (initial fs0)) as Hclean.
    pose proof (extend_search_paths_emits o s1) as Hpaths.
    rewrite extend_search_paths_exact in Hpaths. cbn [trace] in Hpaths.
    cbn [List.filter is_set_debug_mode]. rewrite !List.filter_app.
    rewrite (filter_quiet is_set_debug_mode late_event _
               (fun ev => ltac:(by destruct ev)) Hlate).
    rewrite (filter_quiet is_set_debug_mode
               (fun ev => match ev with EvRemove _ => true | _ => false end) _
               (fun ev => ltac:(by destruct ev)) Hclean).
    rewrite (filter_quiet is_set_debug_mode
               (fun ev => match ev with
                          | EvSysPathAppend _ | EvAddDllDirectory _ => true
                          | _ => false
                          end) _
               (fun ev => ltac:(by destruct ev)) Hpaths).
    done.
  - destruct (script_invalid o (initial fs0) Hv) as (ev & Hev & ->).
    split; [done|]. by destruct ev.
Qed.

End Calls.

(** * The claims on the concrete world *)

Section Witnesses.
Import Demo DemoWorld.

Lemma C1_witness :
  let r := main argv_no_input fs1 in
  outcome r = Raised (SystemExit 1)
  /\ exit_status (outcome r) <> 0
  /\ (exists ev, last (trace r) = Some ev /\ is_fatal_message ev = true)
  /\ Forall (fun ev => is_processing ev = false) (trace r)
  /\ fs (final r) = fs1.
Proof.
  apply (C1_missing_arguments_are_fatal argv_no_input fs1).
  left. split; reflexivity.
Defined.


Lemma C3_witness :
  let r := main argv_nope fs1 in
  outcome r = Raised (SystemExit 1)
  /\ exit_status (outcome r) <> 0
  /\ last (trace r) = Some (EvError "Could not parse XML file: nope.xml")
  /\ Forall (fun ev' => is_writer_init ev' = false /\ is_traverse ev' = false
                        /\ is_pickle_dump ev' = false /\ is_generate ev' = false) (trace r).
Proof.
  apply (C3_parse_failure_aborts argv_nope fs1 (EvParse (Some "nope.xml") false));
    [vm_compute; tauto | reflexivity].
Defined.








(** Two modules, one traversal, two [generate] calls. *)
Example two_modules_one_traversal :
  length (List.filter is_traverse (trace (main argv1 fs1))) = 1
  /\ length (List.filter is_generate (trace (main argv1 fs1))) = 2
  /\ outcome (main argv1 fs1) = Ok tt.
Proof. by vm_compute. Qed.

(** An unreadable cache file is skipped, the XML is parsed afresh. *)
Example corrupt_cache_is_skipped :
  cache_hit (main argv1 fs_corrupt) = false
  /\ existsb is_parse (trace (main argv1 fs_corrupt)) = true
  /\ outcome (main argv1 fs_corrupt) = Ok tt.
Proof. by vm_compute. Qed.

End Witnesses.

(** * The further properties on the concrete world *)

Section Scenes.
Import Demo DemoWorld Scenes.

Lemma usage_witness :
  main argv_help fs1
  = {| outcome := Raised (SystemExit 1);
       final := initial fs1;
       trace := [EvSetDebugMode false; EvUsage] |}.
Proof.
  apply (usage_when_output_missing_or_help argv_help fs1).
  right. right. reflexivity.
Defined.

Lemma required_options_witness :
  main argv_no_module fs1
  = {| outcome := Raised (SystemExit 1);
       final := initial fs1;
       trace := [EvSetDebugMode false; EvError "Required option --module not specified"] |}.
Proof.
  apply (required_options_in_order argv_no_module fs1); [reflexivity|].
  right. reflexivity.
Defined.

Lemma module_names_witness : module_names (read_options argv1) = ["Sdf"; "Usd"].
Proof.
  apply (module_names_of_joined (read_options argv1) ["Sdf"; "Usd"]); [|reflexivity].
  repeat constructor; vm_compute; intuition discriminate.
Defined.

Lemma removed_witness :
  In "out/Sdf/__DOC.py" (output_paths (read_options argv1))
  /\ endswith "out/Sdf/__DOC.py" ".py" = true
  /\ isfile fs_stale "out/Sdf/__DOC.py" = true.
Proof.
  apply (only_stale_outputs_are_removed argv1 fs_stale "out/Sdf/__DOC.py").
  vm_compute. tauto.
Defined.


Lemma generate_output_path_witness :
  In "Sdf" (module_names (read_options argv1))
  /\ "out/Sdf/__DOC.py"
     = if Nat.eqb (length (module_names (read_options argv1))) 1 && endswith "out" ".py"
       then "out" else path_join (path_join "out" "Sdf") "__DOC.py".
Proof.
  apply (generate_output_path argv1 fs1 "out" sdf_writer "out/Sdf/__DOC.py"
           (Some {| oid := 0; items := open_close |})); [reflexivity|].
  vm_compute. tauto.
Defined.

Lemma no_module_witness :
  Forall (fun ev => is_writer_init ev = false /\ is_traverse ev = false
                    /\ is_pickle_dump ev = false /\ is_generate ev = false)
    (trace (main argv_commas fs1))
  /\ (existsb is_loaded (trace (main argv_commas fs1)) = true ->
      outcome (main argv_commas fs1) = Ok tt).
Proof. apply (no_module_no_output argv_commas fs1). reflexivity. Defined.




Lemma unwritable_cache_witness :
  let r := @module_step world (read_options argv1) docstring_writer (Some "<Open;Close;")
             "usd.xml.pickle" None "Sdf" "out/Sdf/__DOC.py" (initial fs_locked) in
  outcome r = Raised (OtherException "PermissionError")
  /\ fs (final r) = fs (initial fs_locked)
  /\ last (trace r)
     = Some (EvPickleDump "usd.xml.pickle" (Some {| oid := 0; items := open_close |}))
  /\ Forall (fun ev => is_generate ev = false) (trace r).
Proof.
  apply (@unwritable_cache_is_fatal world (read_options argv1) docstring_writer
           (Some "<Open;Close;")
           "usd.xml.pickle" "Sdf" "out/Sdf/__DOC.py" (initial fs_locked) locked open_close);
    reflexivity.
Defined.

Lemma input_in_hand_witness :
  valid_options (read_options argv1) = true
  /\ existsb is_loaded (trace (main argv1 fs1)) = true
  /\ In (announce (read_options argv1)) (trace (main argv1 fs1)).
Proof. apply (no_writer_without_input argv1 fs1). left. reflexivity. Defined.

Lemma input_untouched_witness :
  fs (final (main argv1 fs1)) !! "usd.xml" = fs1 !! "usd.xml".
Proof.
  apply (only_outputs_and_cache_change argv1 fs1 "usd.xml").
  - intros w p docs fsa fsb Hp Hgen. simpl in Hgen. unfold demo_generate in Hgen.
    eapply write_file_frame; [exact Hgen | congruence].
  - vm_compute. intuition discriminate.
  - vm_compute. discriminate.
Defined.

(** The whole run behind X18: a cache file that can be neither read nor
    written makes the run fail after the traversal, although reading it
    was forgiven. *)
Example locked_cache_fails_the_run :
  outcome (main argv1 fs_locked) = Raised (OtherException "PermissionError")
  /\ existsb is_parse (trace (main argv1 fs_locked)) = true
  /\ existsb is_generate (trace (main argv1 fs_locked)) = false.
Proof. by vm_compute. Qed.

(** DLL directories matter on Windows only, and only those that exist. *)
Example dll_directories_on_windows :
  List.filter (fun ev => negb (late_event ev)) (trace (@main Windows.world argv_dll fs_dll))
  = [EvSetDebugMode false; EvAddDllDirectory "C:\bin"]
  /\ List.filter (fun ev => negb (late_event ev)) (trace (main argv_dll fs_dll))
     = [EvSetDebugMode false].
Proof. by vm_compute. Qed.

(** A stale output file is removed before the plugin is looked for. *)
Example stale_output_is_removed_first :
  trace (main argv_html fs_stale)
  = [EvSetDebugMode false; EvRemove "out/Sdf/__DOC.py";
     EvImport ".cdWriterHtml" "doxygenlib" (Raised ImportError);
     EvError "No writer plugin exists for format 'Html'"].
Proof. by vm_compute. Qed.

End Scenes.
